(** * mysql_health_api: signal decoding and classification

    A shallow embedding of the decoding and classification code of
    [mysql_health_check.go] (the single-file service and the one under
    [app/], which share every function below except [RouteRoleMaster]),
    followed by the properties of the lag evaluator, the row decoder and
    the role/status routes.

    Integers are Go [int]s, modelled as [Z]; no arithmetic is performed on
    them by the service, only comparisons, so no wrap-around arises.
    Strings are Go byte strings, modelled as [string]. *)

From Stdlib Require Import ZArith String Ascii List Bool Lia DecimalString.
From Stdlib Require Import DecimalPos.
Import ListNotations.

Local Open Scope string_scope.
Local Open Scope Z_scope.

(** ** Go runtime and standard library *)

Module Go.

(** [strconv.IntSize]: the size in bits of an [int] on the platform. *)
Inductive intSize : Type := Bits32 | Bits64.

Definition bits (sz : intSize) : Z :=
  match sz with Bits32 => 32 | Bits64 => 64 end.

(** [math.MaxInt32], [math.MaxInt64]. *)
Definition MaxInt32 : Z := 2147483647.
Definition MaxInt64 : Z := 9223372036854775807.

Definition maxInt (sz : intSize) : Z := 2 ^ (bits sz - 1) - 1.
Definition minInt (sz : intSize) : Z := - 2 ^ (bits sz - 1).

(** Outcome of code that may panic (a failed type assertion). *)
Inductive result (A : Type) : Type :=
| Ok (a : A)
| Panic (msg : string).
Arguments Ok {A} a.
Arguments Panic {A} msg.

(** A byte slice; [None] is the nil slice. *)
Definition bytes : Type := option string.

(** The dynamic values [database/sql] stores into an [interface{}]
    destination: nil for SQL NULL, [[]byte] for text-protocol cells,
    and the other driver types. *)
Inductive iface : Type :=
| VNil
| VBytes (b : bytes)
| VInt64 (n : Z)
| VString (s : string).

(** [b, ok := val.([]byte)]: on failure [b] is the zero value, nil. *)
Definition assertBytes (val : iface) : bytes * bool :=
  match val with
  | VBytes b => (b, true)
  | _ => (None, false)
  end.

(** [value.(string)]: the single-result form panics on failure. *)
Definition assertString (value : iface) : result string :=
  match value with
  | VString s => Ok s
  | _ => Panic "interface conversion: interface {} is not string"
  end.

(** [string(b)]. *)
Definition stringOfBytes (b : bytes) : string :=
  match b with Some s => s | None => "" end.

(** *** strconv *)

Inductive numError : Type := ErrSyntax | ErrRange.

Definition isDigit (c : ascii) : bool :=
  ((48 <=? nat_of_ascii c) && (nat_of_ascii c <=? 57))%nat.

Definition digitVal (c : ascii) : Z := Z.of_nat (nat_of_ascii c) - 48.

Inductive uintParse : Type :=
| UNum (n : Z)
| USyntax
| URange.

(** The digit loop of [strconv.ParseUint] for base 10.  [n] is the
    [uint64] accumulator; the wrap-around test [n1 < n] of the original
    is subsumed by [n1 > maxVal] on unbounded integers.  A range error
    is reported as soon as it occurs, before later bytes are looked at. *)
Fixpoint parseUintLoop (maxVal : Z) (s : string) (n : Z) : uintParse :=
  match s with
  | EmptyString => UNum n
  | String c rest =>
      if isDigit c then
        if (2 ^ 64 - 1) / 10 + 1 <=? n then URange
        else
          let n1 := n * 10 + digitVal c in
          if maxVal <? n1 then URange else parseUintLoop maxVal rest n1
      else USyntax
  end.

(** [strconv.ParseUint(s, 10, 0)]. *)
Definition ParseUint (sz : intSize) (s : string) : Z * option numError :=
  match s with
  | EmptyString => (0, Some ErrSyntax)
  | _ =>
      let maxVal := 2 ^ bits sz - 1 in
      match parseUintLoop maxVal s 0 with
      | UNum n => (n, None)
      | USyntax => (0, Some ErrSyntax)
      | URange => (maxVal, Some ErrRange)
      end
  end.

(** [strconv.ParseInt(s, 10, 0)]: an optional sign, then [ParseUint];
    out-of-range values are clamped to the extreme [int] of that sign. *)
Definition ParseInt (sz : intSize) (s : string) : Z * option numError :=
  match s with
  | EmptyString => (0, Some ErrSyntax)
  | String c rest =>
      let neg := Ascii.eqb c "-" in
      let s' := if Ascii.eqb c "+" || neg then rest else s in
      match ParseUint sz s' with
      | (_, Some ErrSyntax) => (0, Some ErrSyntax)
      | (un, _) =>
          let cutoff := 2 ^ (bits sz - 1) in
          if negb neg && (cutoff <=? un) then (cutoff - 1, Some ErrRange)
          else if neg && (cutoff <? un) then (- cutoff, Some ErrRange)
          else (if neg then - un else un, None)
      end
  end.

(** [strconv.Atoi]: [ParseInt(s, 10, 0)] converted to [int] (its fast
    path for short inputs computes the same value). *)
Definition Atoi (sz : intSize) (s : string) : Z * option numError :=
  ParseInt sz s.

(** [strconv.Itoa]. *)
Definition Itoa (i : Z) : string := NilZero.string_of_int (Z.to_int i).

End Go.

Import Go.

(** The only errors the service tells apart: [sql.ErrNoRows], reported by
    [QueryRow(...).Scan] on an empty result, and any other failure. *)
Inductive sqlError : Type := ErrNoRows | ErrQuery.

(** [*sql.Rows]: the column names and the data rows still to be read; the
    driver gives every row one value per column. *)
Record Rows : Type := mkRows {
  Columns : list string;
  rowData : list (list iface)
}.

(** What the connection answers to the four diagnostic statements at the
    time of a request. *)
Record DB : Type := mkDB {
  (** [QueryRow("show variables like 'read_only'").Scan(&key, &state)] *)
  showReadOnly : sqlError + (string * string);
  (** [Query("show slave status")] *)
  showSlaveStatus : sqlError + Rows;
  (** [QueryRow("select count(_) ... 'Binlog Dump'").Scan(&count)] *)
  countBinlogDump : sqlError + Z;
  (** [QueryRow("select variable_value ... wsrep_local_state").Scan(&v)] *)
  selectWsrepState : sqlError + string
}.

(** The errors [os.Stat] reports here: the file is missing, or it cannot
    be examined. *)
Inductive osError : Type := ENOENT | EACCES.

(** [os.Stat] on a path: [None] is the nil error. *)
Definition FS : Type := string -> option osError.

(** [os.IsNotExist]. *)
Definition IsNotExist (err : option osError) : bool :=
  match err with Some ENOENT => true | _ => false end.

(** ** Data of the service *)

Record HTTPResponse : Type := mkHTTPResponse {
  Status : bool;
  Content : string
}.

Record SlaveStatus : Type := mkSlaveStatus {
  masterHost : string;
  masterPort : string;
  secondsMaster : string
}.

(** What [routeResponse] writes: the status line and the (JSON-encoded)
    response object. *)
Record Written : Type := mkWritten {
  statusCode : Z;
  body : HTTPResponse
}.

(** Package-level variables that requests mutate: [var lag int]. *)
Record Globals : Type := mkGlobals { lag : Z }.

(** Code that reads and writes the globals and may panic. *)
Definition M (A : Type) : Type := Globals -> result (A * Globals).

Definition ret {A} (a : A) : M A := fun g => Ok (a, g).

Definition bind {A B} (m : M A) (k : A -> M B) : M B :=
  fun g => match m g with
           | Ok (a, g') => k a g'
           | Panic msg => Panic msg
           end.

Definition lift {A} (r : result A) : M A :=
  fun g => match r with
           | Ok a => Ok (a, g)
           | Panic msg => Panic msg
           end.

Definition getLag : M Z := fun g => Ok (lag g, g).
Definition setLag (v : Z) : M unit := fun _ => Ok (tt, mkGlobals v).

Declare Scope go_scope.
Delimit Scope go_scope with go.
Notation "x <- m ;; k" := (bind m (fun x => k))
  (at level 61, m at next level, right associativity) : go_scope.
Notation "' p <- m ;; k" := (bind m (fun x => let p := x in k))
  (at level 61, p pattern, m at next level, right associativity) : go_scope.
Notation "m ;;; k" := (bind m (fun _ => k))
  (at level 61, right associativity) : go_scope.

Local Open Scope go_scope.

(** ** General functions *)

(** [int2bool]: convert integers to boolean. *)
Definition int2bool (value : Z) : bool :=
  if negb (value =? 0) then true else false.

(** How one iteration of the column loop ends: by falling through to the
    next column, or by returning from [unknownColumns]. *)
Inductive flow (A : Type) : Type :=
| Next (a : A)
| Return (a : A).
Arguments Next {A} a.
Arguments Return {A} a.

(** The [if col == ... else if ...] chain that stores one decoded cell. *)
Definition assign (res : SlaveStatus) (col sNum : string) : SlaveStatus :=
  if (col =? "Master_Host")%string then
    mkSlaveStatus sNum (masterPort res) (secondsMaster res)
  else if (col =? "Master_Port")%string then
    mkSlaveStatus (masterHost res) sNum (secondsMaster res)
  else if (col =? "Seconds_Behind_Master")%string then
    mkSlaveStatus (masterHost res) (masterPort res) sNum
  else res.

(** [for i, col := range columns { ... }] over the scanned [values],
    starting at index [i]. *)
Fixpoint columnsLoop (columns : list string) (i : nat) (values : list iface)
    (res : SlaveStatus) : result (flow SlaveStatus) :=
  match columns with
  | [] => Ok (Next res)
  | col :: columns' =>
      let val := nth i values VNil in
      let '(b, ok) := assertBytes val in
      match b with
      | None => Ok (Return res)
      | Some _ =>
          let value := if ok then VString (stringOfBytes b) else val in
          match assertString value with
          | Panic msg => Panic msg
          | Ok sNum => columnsLoop columns' (S i) values (assign res col sNum)
          end
      end
  end.

(** [for rows.Next() { rows.Scan(valuePtrs...); ... }]. *)
Fixpoint rowsLoop (columns : list string) (data : list (list iface))
    (res : SlaveStatus) : result SlaveStatus :=
  match data with
  | [] => Ok res
  | values :: data' =>
      match columnsLoop columns 0 values res with
      | Panic msg => Panic msg
      | Ok (Return r) => Ok r
      | Ok (Next r) => rowsLoop columns data' r
      end
  end.

(** [unknownColumns]: get the values of specific columns out of a range of
    unknown columns. *)
Definition unknownColumns (rows : Rows) : result SlaveStatus :=
  rowsLoop (Columns rows) (rowData rows) (mkSlaveStatus "" "" "").

(** [routeResponse]: build the response to an API request. *)
Definition routeResponse (httpStatus : bool) (contents : string) : Written :=
  mkWritten (if httpStatus then 200 else 403)
            (mkHTTPResponse httpStatus contents).

(** ** Database functions *)

(** [readOnly]: is the database in read-only mode. *)
Definition readOnly (db : DB) : bool :=
  match showReadOnly db with
  | inl _ => false
  | inr (_, state) => if (state =? "OFF")%string then false else true
  end.

(** [isReplica]: the database's master, in case it is a replica. *)
Definition isReplica (db : DB) : result (bool * string * string) :=
  match showSlaveStatus db with
  | inl _ => Ok (false, "", "")
  | inr rows =>
      match unknownColumns rows with
      | Panic msg => Panic msg
      | Ok slaveValues =>
          if negb (masterHost slaveValues =? "")%string then
            Ok (true, masterHost slaveValues, masterPort slaveValues)
          else Ok (false, "", "")
      end
  end.

(** [servingBinlogs]. *)
Definition servingBinlogs (db : DB) : Z :=
  match countBinlogDump db with
  | inl _ => 0
  | inr count => count
  end.

(** [galeraClusterState]. *)
Definition galeraClusterState (db : DB) : bool * string :=
  match selectWsrepState db with
  | inl _ => (false, "")
  | inr v => (true, v)
  end.

Section Service.

(** The platform's [strconv.IntSize]. *)
Variable IntSize : intSize.

(** The threshold after the substitution at the head of
    [replicaStatus]. *)
Definition effectiveLagCount (lagCount : Z) : Z :=
  if lagCount =? 0 then
    if bits IntSize =? 64 then MaxInt64 else MaxInt32
  else lagCount.

(** [replicaStatus]: read the database status if it is a replica.  The
    parsed lag is stored in the package-level [lag]. *)
Definition replicaStatus (lagCount : Z) (db : DB) : M (bool * Z) :=
  let lagCount := effectiveLagCount lagCount in
  match showSlaveStatus db with
  | inl _ => ret (false, 0)
  | inr rows =>
      slaveValues <- lift (unknownColumns rows) ;;
      let '(notSlave, seconds) :=
        if (secondsMaster slaveValues =? "")%string then (true, "0")
        else (false, secondsMaster slaveValues) in
      setLag (fst (Atoi IntSize seconds)) ;;;
      lag <- getLag ;;
      if (0 <? lag) || negb notSlave then
        if lag <? lagCount then ret (true, lag) else ret (false, lag)
      else ret (false, 0)
  end.

(** *** Status routes *)

Definition RouteStatusReadOnly (db : DB) : M Written :=
  let isReadonly := readOnly db in
  ret (routeResponse isReadonly "").

Definition RouteStatusReadWritable (db : DB) : M Written :=
  let isReadonly := readOnly db in
  ret (routeResponse (negb isReadonly) "").

Definition RouteStatusSingle (db : DB) : M Written :=
  let isReadonly := readOnly db in
  '(isReplica, _, _) <- lift (isReplica db) ;;
  let isServeLogs := int2bool (servingBinlogs db) in
  ret (routeResponse (negb isReadonly && negb isReplica && negb isServeLogs) "").

Definition RouteStatusLeader (db : DB) : M Written :=
  '(isReplica, _, _) <- lift (isReplica db) ;;
  let isServeLogs := int2bool (servingBinlogs db) in
  ret (routeResponse (negb isReplica && isServeLogs) "").

Definition RouteStatusFollower (db : DB) : M Written :=
  '(isReplica, _, _) <- lift (isReplica db) ;;
  ret (routeResponse isReplica "").

Definition RouteStatusTopology (db : DB) : M Written :=
  '(isReplica, _, _) <- lift (isReplica db) ;;
  '(replicaStatus, _) <- replicaStatus 0 db ;;
  let isServeLogs := int2bool (servingBinlogs db) in
  ret (routeResponse ((negb replicaStatus && isServeLogs) || isReplica) "").

(** *** Role routes *)

Definition RouteRoleReplica (db : DB) : M Written :=
  let isReadonly := readOnly db in
  '(replicaStatus, _) <- replicaStatus 0 db ;;
  ret (routeResponse (isReadonly && replicaStatus) "").

Definition RouteRoleReplicaByLag (db : DB) : M Written :=
  let isReadonly := readOnly db in
  lag <- getLag ;;
  '(replicaStatus, _) <- replicaStatus lag db ;;
  ret (routeResponse (isReadonly && replicaStatus) "").

Definition RouteRoleGalera (db : DB) : M Written :=
  let '(galeraClusterState, _) := galeraClusterState db in
  ret (routeResponse galeraClusterState "").

(** *** Read routes *)

Definition RouteReadGaleraState (db : DB) : M Written :=
  let '(galeraClusterState, varValue) := galeraClusterState db in
  ret (routeResponse galeraClusterState varValue).

Definition RouteReadReplicationLag (db : DB) : M Written :=
  let lagString := "" in
  '(isReplica, _, _) <- lift (isReplica db) ;;
  '(_, lagValue) <- replicaStatus 0 db ;;
  let lagString := if isReplica : bool then Itoa lagValue else lagString in
  ret (routeResponse isReplica lagString).

Definition RouteReadReplicationMaster (db : DB) : M Written :=
  '(isReplica, masterIP, masterPort) <- lift (isReplica db) ;;
  let masterIP :=
    if isReplica : bool then masterIP ++ ":" ++ masterPort else masterIP in
  ret (routeResponse isReplica masterIP).

Definition RouteReadReplicasCounter (db : DB) : M Written :=
  let lagString := "0" in
  let isServeLogs := servingBinlogs db in
  let lagString :=
    if int2bool isServeLogs then Itoa isServeLogs else lagString in
  ret (routeResponse (int2bool isServeLogs) lagString).

(** The handlers [main] registers, but for [/role/master]. *)
Definition sharedRoutes : list (string * (DB -> M Written)) :=
  [("/status/ro", RouteStatusReadOnly);
   ("/status/rw", RouteStatusReadWritable);
   ("/status/single", RouteStatusSingle);
   ("/status/leader", RouteStatusLeader);
   ("/status/follower", RouteStatusFollower);
   ("/status/topology", RouteStatusTopology);
   ("/role/replica", RouteRoleReplica);
   ("/role/replica/", RouteRoleReplicaByLag);
   ("/role/galera", RouteRoleGalera);
   ("/read/galera/state", RouteReadGaleraState);
   ("/read/replication/lag", RouteReadReplicationLag);
   ("/read/replication/master", RouteReadReplicationMaster);
   ("/read/replication/replicas_count", RouteReadReplicasCounter)].

End Service.

(** [RouteRoleMaster] of the single-file service. *)
Module Standalone.

Definition RouteRoleMaster (db : DB) : M Written :=
  let isReadonly := readOnly db in
  '(isReplica, _, _) <- lift (isReplica db) ;;
  ret (routeResponse (negb isReadonly && negb isReplica) "").

Definition router (sz : intSize) : list (string * (DB -> M Written)) :=
  ("/role/master", RouteRoleMaster) :: sharedRoutes sz.

End Standalone.

(** [RouteRoleMaster] of the service under [app/]. *)
Module App.

Definition RouteRoleMaster (Stat : FS) (db : DB) : M Written :=
  if IsNotExist (Stat "/master") then
    let isReadonly := readOnly db in
    '(isReplica, _, _) <- lift (isReplica db) ;;
    let isServeLogs := int2bool (servingBinlogs db) in
    ret (routeResponse (negb isReadonly && negb isReplica && isServeLogs) "")
  else ret (routeResponse true "").

Definition router (sz : intSize) (Stat : FS)
  : list (string * (DB -> M Written)) :=
  ("/role/master", RouteRoleMaster Stat) :: sharedRoutes sz.

End App.

(** ** Observations used in the statements *)

(** The [(succeeded, detail)] pair a route hands to the HTTP layer, or
    [None] if the handler panicked. *)
Definition answer (route : M Written) (g : Globals) : option (bool * string) :=
  match route g with
  | Ok (w, _) => Some (Status (body w), Content (body w))
  | Panic _ => None
  end.

(** The pair returned by a call, without the globals it leaves behind. *)
Definition returned {A} (call : M A) (g : Globals) : option A :=
  match call g with
  | Ok (a, _) => Some a
  | Panic _ => None
  end.

(** The [Seconds_Behind_Master] test and the [Atoi] call of
    [replicaStatus], on a decoded row. *)
Definition lagPresent (slaveValues : SlaveStatus) : bool :=
  negb (secondsMaster slaveValues =? "")%string.

Definition parsedLag (sz : intSize) (slaveValues : SlaveStatus) : Z :=
  fst (Atoi sz (if (secondsMaster slaveValues =? "")%string then "0"
                else secondsMaster slaveValues)).

(** The decision of the lag evaluator as the specification words it:
    within threshold when the lag is in (0, t], or when it is 0 with the
    field present. *)
Definition specWithin (t : Z) (present : bool) (lagv : Z) : Prop :=
  (0 < lagv /\ lagv <= t) \/ (lagv = 0 /\ present = true).

(** The master-role formula as the specification words it. *)
Definition specMasterRole (ro replica : bool) (binlogDumpCount : Z) : bool :=
  negb ro && negb replica && (0 <? binlogDumpCount).

(** Every probe is unavailable: its statement failed or gave no row. *)
Definition unavailable (db : DB) : Prop :=
  (exists e, showReadOnly db = inl e) /\
  ((exists e, showSlaveStatus db = inl e) \/
   (exists rows, showSlaveStatus db = inr rows /\ rowData rows = [])) /\
  (exists e, countBinlogDump db = inl e) /\
  (exists e, selectWsrepState db = inl e).

(** A non-NULL text-protocol cell. *)
Definition cell (s : string) : iface := VBytes (Some s).

(** The fields of a decoded row never depend on anything but text cells:
    a field is empty or is the text of some cell. *)
Definition fromCell (data : list (list iface)) (field : string) : Prop :=
  field = "" \/ exists values, In values data /\ In (cell field) values.

Definition fromCells (data : list (list iface)) (res : SlaveStatus) : Prop :=
  fromCell data (masterHost res) /\ fromCell data (masterPort res) /\
  fromCell data (secondsMaster res).

(** ** Sample diagnostics *)

(** The columns of [SHOW SLAVE STATUS] that matter here, in server
    order, with their neighbours. *)
Definition slaveColumns : list string :=
  ["Slave_IO_State"; "Master_Host"; "Master_User"; "Master_Port";
   "Connect_Retry"; "Slave_IO_Running"; "Slave_SQL_Running";
   "Seconds_Behind_Master"; "Last_IO_Error"].

(** One status row of a replica of 10.0.0.1:3306 with the given
    [Seconds_Behind_Master] cell. *)
Definition replicaRows (seconds : iface) : Rows :=
  mkRows slaveColumns
    [[cell "Waiting for master to send event"; cell "10.0.0.1"; cell "repl";
      cell "3306"; cell "60"; cell "Yes"; cell "Yes"; seconds; cell ""]].

(** A read-only replica. *)
Definition replicaDB (seconds : iface) : DB :=
  mkDB (inr ("read_only", "ON")) (inr (replicaRows seconds))
       (inr 0) (inl ErrNoRows).

(** A writable server without replication and [n] binlog dump threads. *)
Definition primaryDB (n : Z) : DB :=
  mkDB (inr ("read_only", "OFF")) (inr (mkRows slaveColumns []))
       (inr n) (inl ErrNoRows).

(** A connection on which every statement fails. *)
Definition brokenDB : DB :=
  mkDB (inl ErrQuery) (inl ErrQuery) (inl ErrQuery) (inl ErrQuery).

(** A status row whose [Master_Host] is NULL while the later recognized
    columns carry text. *)
Definition nullHostRows : Rows :=
  mkRows ["Master_Host"; "Master_Port"; "Seconds_Behind_Master"]
         [[VNil; cell "3306"; cell "0"]].

(** A status row that carries a lag but no master host column. *)
Definition hostlessRows : Rows :=
  mkRows ["Seconds_Behind_Master"] [[cell "0"]].

(** A status row whose [Master_Host] is empty while it carries a port and
    a lag, on a read-only server. *)
Definition emptyHostRows : Rows :=
  mkRows ["Master_Host"; "Master_Port"; "Seconds_Behind_Master"]
         [[cell ""; cell "3306"; cell "5"]].

Definition emptyHostDB : DB :=
  mkDB (inr ("read_only", "ON")) (inr emptyHostRows) (inr 0) (inl ErrNoRows).

(** A replica on which only the [read_only] lookup fails. *)
Definition readOnlyFailsDB : DB :=
  mkDB (inl ErrQuery) (inr (replicaRows (cell "0"))) (inr 0) (inr "4").

Definition g0 : Globals := mkGlobals 0.

(** [os.Stat] when only [/master] exists, and when nothing exists. *)
Definition markerPresent : FS :=
  fun path => if (path =? "/master")%string then None else Some ENOENT.

Definition markerAbsent : FS := fun _ => Some ENOENT.

(** ** Middleware and start-up *)

(** The functions of Go's [strings] package that [CheckURL] calls, on
    byte strings.  The cut sets passed are ASCII, for which the package
    works byte by byte. *)
Module Strings.

(** Is byte [c] one of the bytes of [cutset]. *)
Fixpoint inSet (cutset : string) (c : ascii) : bool :=
  match cutset with
  | EmptyString => false
  | String d cutset' => Ascii.eqb c d || inSet cutset' c
  end.

(** [strings.TrimLeft]. *)
Fixpoint TrimLeft (s cutset : string) : string :=
  match s with
  | EmptyString => EmptyString
  | String c s' => if inSet cutset c then TrimLeft s' cutset else s
  end.

(** [strings.TrimRight]. *)
Fixpoint TrimRight (s cutset : string) : string :=
  match s with
  | EmptyString => EmptyString
  | String c s' =>
      match TrimRight s' cutset with
      | EmptyString => if inSet cutset c then EmptyString else String c EmptyString
      | kept => String c kept
      end
  end.

(** [strings.Trim]: the trailing bytes are cut first, then the leading
    ones. *)
Definition Trim (s cutset : string) : string :=
  TrimLeft (TrimRight s cutset) cutset.

(** [strings.Contains]: [substr] starts at some index of [s]. *)
Fixpoint Contains (s substr : string) : bool :=
  String.prefix substr s ||
  match s with
  | EmptyString => false
  | String _ s' => Contains s' substr
  end.

(** [strings.Compare]. *)
Definition Compare (a b : string) : Z :=
  match String.compare a b with
  | Eq => 0
  | Lt => -1
  | Gt => 1
  end.

End Strings.

(** [ResponseType] and [ContentType]. *)
Definition ResponseType : string := "application/json".
Definition ContentType : string := "Content-Type".

Section Middleware.

(** The platform's [strconv.IntSize]. *)
Variable IntSize : intSize.

(** [CheckURL]: the middleware that validates the requested URI.  [path]
    is [r.URL.String()] and [next] the wrapped handler.  The answer is
    [None] when the middleware returns without calling [next], and
    otherwise the header it has set with what [next] produced. *)
Definition CheckURL {A} (next : string -> M A) (path : string)
  : M (option (string * string * A)) :=
  let pathLength := String.length path in
  let matchPath := "/role/replica/" in
  let matchLength := String.length matchPath in
  let serve : M (option (string * string * A)) :=
    a <- next path ;; ret (Some (ContentType, ResponseType, a)) in
  if Strings.Contains path matchPath && (matchLength <? pathLength)%nat then
    setLag (fst (Atoi IntSize (Strings.Trim path matchPath))) ;;; serve
  else if negb (Strings.Compare path (Strings.TrimRight path "/") =? 0) then
    ret None
  else serve.

End Middleware.

(** The command-line flags of the service under [app/], behind their
    pointers. *)
Record Flags : Type := mkFlags {
  dbUser : string;
  dbPass : string;
  dbHost : string;
  dbPort : Z;
  dbCnf : string;
  dbSocketPath : string;
  listenAddr : string;
  listenPort : Z
}.

(** [cfg.Section("client")] of a loaded ini file: [HasKey],
    [Key(...).String()] and [Key(...).Int()] (its error dropped). *)
Record IniSection : Type := mkIniSection {
  HasKey : string -> bool;
  KeyString : string -> string;
  KeyInt : string -> Z
}.

(** [*sql.DB]: the data source name it was opened with, and whether
    [Close] has been called on it. *)
Record Handle : Type := mkHandle {
  dataSourceName : string;
  closed : bool
}.

(** What start-up finds outside the process: the file system, the ini
    file behind a path ([ini.Load], an error message or the client
    section), whether [sql.Open] accepts a data source name (it returns a
    nil handle otherwise) and the error message of [Ping], if any. *)
Record Env : Type := mkEnv {
  osStat : FS;
  iniLoad : string -> string + IniSection;
  sqlOpen : string -> bool;
  dbPing : string -> option string
}.

Definition withHost (f : Flags) (host : string) : Flags :=
  mkFlags (dbUser f) (dbPass f) host (dbPort f) (dbCnf f) (dbSocketPath f)
          (listenAddr f) (listenPort f).

Definition withPort (f : Flags) (port : Z) : Flags :=
  mkFlags (dbUser f) (dbPass f) (dbHost f) port (dbCnf f) (dbSocketPath f)
          (listenAddr f) (listenPort f).

Definition withUser (f : Flags) (user : string) : Flags :=
  mkFlags user (dbPass f) (dbHost f) (dbPort f) (dbCnf f) (dbSocketPath f)
          (listenAddr f) (listenPort f).

Definition withPass (f : Flags) (pass : string) : Flags :=
  mkFlags (dbUser f) pass (dbHost f) (dbPort f) (dbCnf f) (dbSocketPath f)
          (listenAddr f) (listenPort f).

(** The tail of [validateInputArgs], from the test for empty arguments
    on: build the data source name, open, ping, and close on the way
    out. *)
Definition connect (env : Env) (flags : Flags)
  : result (bool * string * Flags * option Handle) :=
  if (dbUser flags =? "")%string || (dbPass flags =? "")%string
     || (dbHost flags =? "")%string then
    Ok (false,
        "Empty required arguments to start connection to database. Please, fix it.",
        flags, None)
  else
    let dsn := dbUser flags ++ ":" ++ dbPass flags ++ "@" ++ dbHost flags
               ++ "/mysql" in
    if sqlOpen env dsn then
      match dbPing env dsn with
      | Some err => Ok (false, err, flags, Some (mkHandle dsn false))
      | None => Ok (true, "", flags, Some (mkHandle dsn true))
      end
    else Panic "invalid memory address or nil pointer dereference".

(** [validateInputArgs]: check the input arguments; true on success,
    false and an error message otherwise.  Returned with them are the
    flags as the function leaves them and the package-level [db]. *)
Definition validateInputArgs (env : Env) (flags : Flags)
  : result (bool * string * Flags * option Handle) :=
  if (listenPort flags <? 1024) || (65535 <? listenPort flags) then
    Ok (false, "API port out of allowed ports range (1024-65535).", flags, None)
  else if negb (dbCnf flags =? "")%string then
    if IsNotExist (osStat env (dbCnf flags)) then
      Ok (false, "`" ++ dbCnf flags ++ "`: Not found.", flags, None)
    else
      match iniLoad env (dbCnf flags) with
      | inl err => Ok (false, err, flags, None)
      | inr client =>
          let flags :=
            if HasKey client "socket" then
              withHost flags ("unix(" ++ KeyString client "socket" ++ ")")
            else
              let flags :=
                if HasKey client "port" then withPort flags (KeyInt client "port")
                else withPort flags 3306 in
              withHost flags ("tcp(" ++ KeyString client "host" ++ ":"
                              ++ Itoa (dbPort flags) ++ ")") in
          let flags :=
            if HasKey client "user" then withUser flags (KeyString client "user")
            else withUser flags "mysql" in
          if HasKey client "password" then
            connect env (withPass flags (KeyString client "password"))
          else
            Ok (false,
                "No database password is present in config file. Please, provide it.",
                flags, None)
      end
  else
    let flags :=
      if negb (dbSocketPath flags =? "")%string then
        withHost flags ("unix(" ++ dbSocketPath flags ++ ")")
      else
        withHost flags ("tcp(" ++ dbHost flags ++ ":" ++ Itoa (dbPort flags)
                        ++ ")") in
    connect env flags.

(** What a handle answers: [Close] prevents new queries from starting,
    so every statement on a closed handle fails. *)
Definition through (h : Handle) (server : DB) : DB :=
  if closed h then mkDB (inl ErrQuery) (inl ErrQuery) (inl ErrQuery) (inl ErrQuery)
  else server.

(** ** Further observations *)

(** The globals a call leaves behind. *)
Definition leaves {A} (call : M A) (g : Globals) : option Globals :=
  match call g with
  | Ok (_, g') => Some g'
  | Panic _ => None
  end.

(** Storing a row of text cells, column by column. *)
Definition storeRow (columns : list string) (res : SlaveStatus)
    (texts : list string) : SlaveStatus :=
  fold_left (fun r d => assign r (fst d) (snd d)) (combine columns texts) res.

(** A field that is empty or the text of a cell standing in a column of
    the given name. *)
Definition fromColumn (rows : Rows) (name field : string) : Prop :=
  field = "" \/
  exists values i,
    In values (rowData rows) /\
    nth_error (Columns rows) i = Some name /\
    nth i values VNil = cell field.

(** Every field of a decoded row comes from a column of its own name. *)
Definition byColumn (rows : Rows) (res : SlaveStatus) : Prop :=
  fromColumn rows "Master_Host" (masterHost res) /\
  fromColumn rows "Master_Port" (masterPort res) /\
  fromColumn rows "Seconds_Behind_Master" (secondsMaster res).

(** A string of decimal digits. *)
Fixpoint allDigits (s : string) : bool :=
  match s with
  | EmptyString => true
  | String c s' => isDigit c && allDigits s'
  end.

(** The handlers that do not call [replicaStatus]. *)
Definition quietRoutes (Stat : FS) : list (DB -> M Written) :=
  [RouteStatusReadOnly; RouteStatusReadWritable; RouteStatusSingle;
   RouteStatusLeader; RouteStatusFollower; RouteRoleGalera;
   RouteReadGaleraState; RouteReadReplicationMaster;
   RouteReadReplicasCounter; Standalone.RouteRoleMaster;
   App.RouteRoleMaster Stat].

(** The handlers that call [replicaStatus]. *)
Definition lagRoutes (sz : intSize) : list (DB -> M Written) :=
  [RouteStatusTopology sz; RouteRoleReplica sz; RouteRoleReplicaByLag sz;
   RouteReadReplicationLag sz].

(** The number a string of decimal digits stands for, read from the
    left with [acc] for the digits already read. *)
Fixpoint uintValue (d : Decimal.uint) (acc : Z) : Z :=
  match d with
  | Decimal.Nil => acc
  | Decimal.D0 l => uintValue l (acc * 10 + 0)
  | Decimal.D1 l => uintValue l (acc * 10 + 1)
  | Decimal.D2 l => uintValue l (acc * 10 + 2)
  | Decimal.D3 l => uintValue l (acc * 10 + 3)
  | Decimal.D4 l => uintValue l (acc * 10 + 4)
  | Decimal.D5 l => uintValue l (acc * 10 + 5)
  | Decimal.D6 l => uintValue l (acc * 10 + 6)
  | Decimal.D7 l => uintValue l (acc * 10 + 7)
  | Decimal.D8 l => uintValue l (acc * 10 + 8)
  | Decimal.D9 l => uintValue l (acc * 10 + 9)
  end.

(** What start-up decides, without the flags it leaves behind: the
    verdict, the message and the handle; [None] if it panicked. *)
Definition verdict (r : result (bool * string * Flags * option Handle))
  : option (bool * string * option Handle) :=
  match r with
  | Ok (ok, msg, _, h) => Some (ok, msg, h)
  | Panic _ => None
  end.

(** What the middleware adds around the wrapped handler: the header. *)
Definition served {A} (next : M A) : M (option (string * string * A)) :=
  a <- next ;; ret (Some (ContentType, ResponseType, a)).

(** Sample start-up data: flags without a config file, and a server that
    accepts the connection. *)
Definition sampleFlags : Flags :=
  mkFlags "mysql" "secret" "localhost" 3306 "" "" "0.0.0.0" 3307.

Definition reachable : Env :=
  mkEnv (fun _ => Some ENOENT) (fun _ => inl "open: no such file")
        (fun _ => true) (fun _ => None).

(** Evaluating the digit tests on a literal byte. *)
Ltac eval_digit :=
  repeat match goal with
         | |- context [isDigit ?c] =>
             let b := eval vm_compute in (isDigit c) in
             change (isDigit c) with b
         | |- context [digitVal ?c] =>
             let v := eval vm_compute in (digitVal c) in
             change (digitVal c) with v
         end.

(** Rewriting a route once the two replication calls are known. *)
Ltac run_route :=
  unfold answer, returned, bind, lift, ret, getLag;
  repeat match goal with
         | H : isReplica _ = Ok _ |- _ => rewrite H
         | H : replicaStatus _ _ _ _ = Ok _ |- _ => rewrite H
         end;
  cbn [Status Content body routeResponse fst snd].

(** * Properties *)

(** ** strconv on sample inputs *)

Example Atoi_42 : Atoi Bits64 "42" = (42, None).
Proof. reflexivity. Qed.

Example Atoi_minus : Atoi Bits64 "-5" = (-5, None).
Proof. reflexivity. Qed.

Example Atoi_plus : Atoi Bits32 "+17" = (17, None).
Proof. reflexivity. Qed.

Example Atoi_empty : Atoi Bits64 "" = (0, Some ErrSyntax).
Proof. reflexivity. Qed.

Example Atoi_sign_only : Atoi Bits64 "-" = (0, Some ErrSyntax).
Proof. reflexivity. Qed.

Example Atoi_garbage : Atoi Bits64 "12s" = (0, Some ErrSyntax).
Proof. reflexivity. Qed.

Example Atoi_max : Atoi Bits64 "9223372036854775807" = (MaxInt64, None).
Proof. vm_compute. reflexivity. Qed.

Example Atoi_clamp_hi :
  Atoi Bits64 "9223372036854775808" = (MaxInt64, Some ErrRange).
Proof. vm_compute. reflexivity. Qed.

Example Atoi_clamp_lo :
  Atoi Bits64 "-99999999999999999999999" = (minInt Bits64, Some ErrRange).
Proof. vm_compute. reflexivity. Qed.

Example Atoi_min32 : Atoi Bits32 "-2147483648" = (-2147483648, None).
Proof. vm_compute. reflexivity. Qed.

Example Atoi_clamp32 : Atoi Bits32 "2147483648" = (MaxInt32, Some ErrRange).
Proof. vm_compute. reflexivity. Qed.

Example Itoa_0 : Itoa 0 = "0".
Proof. reflexivity. Qed.

Example Itoa_42 : Itoa 42 = "42".
Proof. reflexivity. Qed.

Example Itoa_neg : Itoa (-7) = "-7".
Proof. reflexivity. Qed.

Lemma Atoi_zero sz : Atoi sz "0" = (0, None).
Proof. destruct sz; reflexivity. Qed.

Lemma maxInt_cases sz :
  (if bits sz =? 64 then MaxInt64 else MaxInt32) = maxInt sz.
Proof. destruct sz; reflexivity. Qed.

Lemma maxInt_pos sz : 0 < maxInt sz.
Proof. destruct sz; reflexivity. Qed.

Lemma int2bool_pos n : 0 <= n -> int2bool n = (0 <? n).
Proof.
  intros Hn. unfold int2bool.
  destruct (Z.eqb_spec n 0) as [-> | Hne]; simpl; [reflexivity |].
  symmetry. apply Z.ltb_lt. lia.
Qed.

(** ** The row decoder *)

(** The guard on nil makes the string assertion unreachable on anything
    but text: the column loop never panics. *)
Lemma columnsLoop_no_panic columns :
  forall i values res, exists f, columnsLoop columns i values res = Ok f.
Proof.
  induction columns as [| col columns IH]; intros i values res; simpl.
  - eexists; reflexivity.
  - destruct (nth i values VNil) as [| [b |] | n | s]; simpl;
      try (eexists; reflexivity).
    apply IH.
Qed.

Lemma rowsLoop_no_panic columns data :
  forall res, exists r, rowsLoop columns data res = Ok r.
Proof.
  induction data as [| values data IH]; intros res; simpl.
  - eexists; reflexivity.
  - destruct (columnsLoop_no_panic columns 0%nat values res) as [[r | r] ->].
    + apply IH.
    + eexists; reflexivity.
Qed.

Lemma unknownColumns_no_panic rows :
  exists slaveValues, unknownColumns rows = Ok slaveValues.
Proof. apply rowsLoop_no_panic. Qed.

Lemma unknownColumns_no_rows columns :
  unknownColumns (mkRows columns []) = Ok (mkSlaveStatus "" "" "").
Proof. reflexivity. Qed.

(** All cells of a row up to the first one that is not text are decoded,
    and the loop returns there: the columns from that cell on are not
    looked at. *)
Lemma columnsLoop_stops (decoded : list (string * string)) :
  forall (before : list iface) (v : iface) (col : string)
         (columns' : list string) (after : list iface) (res : SlaveStatus),
    fst (assertBytes v) = None ->
    columnsLoop (map fst decoded ++ col :: columns') (length before)
                (before ++ map (fun d => cell (snd d)) decoded ++ v :: after)
                res
    = Ok (Return (fold_left (fun r d => assign r (fst d) (snd d)) decoded res)).
Proof.
  induction decoded as [| [c s] decoded IH];
    intros before v col columns' after res Hv; simpl.
  - rewrite nth_middle. destruct (assertBytes v) as [b ok].
    simpl in Hv. subst b. reflexivity.
  - rewrite nth_middle. simpl.
    specialize (IH (before ++ [cell s])%list v col columns' after
                   (assign res c s) Hv).
    rewrite length_app in IH. simpl in IH.
    rewrite Nat.add_1_r in IH. rewrite <- app_assoc in IH. exact IH.
Qed.

Lemma assign_fromCells data res col sNum :
  fromCells data res -> fromCell data sNum -> fromCells data (assign res col sNum).
Proof.
  intros (Hh & Hp & Hs) Hn. unfold assign.
  destruct (col =? "Master_Host")%string; [repeat split; assumption |].
  destruct (col =? "Master_Port")%string; [repeat split; assumption |].
  destruct (col =? "Seconds_Behind_Master")%string; repeat split; assumption.
Qed.

Lemma columnsLoop_fromCells data values columns :
  In values data ->
  forall i res f,
    fromCells data res ->
    columnsLoop columns i values res = Ok f ->
    match f with Next r | Return r => fromCells data r end.
Proof.
  intros Hin. induction columns as [| col columns IH];
    intros i res f Hres Hrun; simpl in Hrun.
  - injection Hrun as <-. exact Hres.
  - destruct (nth i values VNil) as [| [b |] | n | s] eqn:Hnth; simpl in Hrun;
      try (injection Hrun as <-; exact Hres).
    apply (IH (S i) (assign res col b) f); [| exact Hrun].
    apply assign_fromCells; [exact Hres |].
    right. exists values. split; [exact Hin |].
    unfold cell. rewrite <- Hnth. apply nth_In.
    destruct (Nat.lt_ge_cases i (length values)) as [Hlt | Hge]; [exact Hlt |].
    rewrite nth_overflow in Hnth by exact Hge. discriminate.
Qed.

Lemma rowsLoop_fromCells all columns data :
  incl data all ->
  forall res r,
    fromCells all res -> rowsLoop columns data res = Ok r -> fromCells all r.
Proof.
  induction data as [| values data IH]; intros Hincl res r Hres Hrun;
    simpl in Hrun.
  - injection Hrun as <-. exact Hres.
  - assert (Hin : In values all) by (apply Hincl; left; reflexivity).
    destruct (columnsLoop columns 0%nat values res) as [[r' | r'] |] eqn:Hloop;
      try discriminate;
      pose proof (columnsLoop_fromCells all values columns Hin _ _ _ Hres Hloop)
        as Hr'.
    + apply (IH (fun x Hx => Hincl x (or_intror Hx)) r' r Hr' Hrun).
    + injection Hrun as <-. exact Hr'.
Qed.

Lemma unknownColumns_fromCells rows slaveValues :
  unknownColumns rows = Ok slaveValues ->
  fromCells (rowData rows) slaveValues.
Proof.
  apply rowsLoop_fromCells; [apply incl_refl |].
  repeat split; left; reflexivity.
Qed.

(** ** The lag evaluator *)

Lemma replicaStatus_failed sz t db g e :
  showSlaveStatus db = inl e ->
  replicaStatus sz t db g = Ok ((false, 0), g).
Proof. intros H. unfold replicaStatus. rewrite H. reflexivity. Qed.

(** What [replicaStatus] returns and stores once the row is decoded. *)
Lemma replicaStatus_decoded sz t db g rows slaveValues :
  showSlaveStatus db = inr rows ->
  unknownColumns rows = Ok slaveValues ->
  replicaStatus sz t db g =
  Ok ((lagPresent slaveValues &&
         (parsedLag sz slaveValues <? effectiveLagCount sz t),
       parsedLag sz slaveValues),
      mkGlobals (parsedLag sz slaveValues)).
Proof.
  intros Hq Hd. unfold replicaStatus, bind, lift, lagPresent, parsedLag.
  rewrite Hq, Hd.
  destruct (secondsMaster slaveValues =? "")%string;
    cbn -[Atoi Z.ltb effectiveLagCount].
  - rewrite Atoi_zero. reflexivity.
  - rewrite orb_true_r.
    destruct (fst (Atoi sz (secondsMaster slaveValues))
              <? effectiveLagCount sz t); reflexivity.
Qed.

Lemma replicaStatus_no_panic sz t db g :
  exists r g', replicaStatus sz t db g = Ok (r, g').
Proof.
  destruct (showSlaveStatus db) as [e | rows] eqn:Hq.
  - rewrite (replicaStatus_failed sz t db g e Hq). eauto.
  - destruct (unknownColumns_no_panic rows) as [sv Hd].
    rewrite (replicaStatus_decoded sz t db g rows sv Hq Hd). eauto.
Qed.

Lemma lagPresent_true slaveValues :
  lagPresent slaveValues = true <-> secondsMaster slaveValues <> "".
Proof.
  unfold lagPresent.
  destruct (String.eqb_spec (secondsMaster slaveValues) ""); simpl;
    split; congruence.
Qed.

Lemma parsedLag_present sz slaveValues :
  secondsMaster slaveValues <> "" ->
  parsedLag sz slaveValues = fst (Atoi sz (secondsMaster slaveValues)).
Proof.
  intros H. unfold parsedLag.
  destruct (String.eqb_spec (secondsMaster slaveValues) "");
    [contradiction | reflexivity].
Qed.

(** C1 (as the code has it).  For a threshold [t > 0] and a decoded
    replication row, [replicaStatus t] answers within-threshold exactly
    when the [Seconds_Behind_Master] field is present and the parsed lag
    is strictly below [t]; the lag it returns is the parsed lag.  A lag
    equal to [t] is therefore not within threshold, while a present zero
    lag is. *)
Theorem replicaStatus_within_iff sz t db g rows slaveValues :
  0 < t ->
  showSlaveStatus db = inr rows ->
  unknownColumns rows = Ok slaveValues ->
  exists within,
    returned (replicaStatus sz t db) g
      = Some (within, parsedLag sz slaveValues) /\
    (within = true <->
     lagPresent slaveValues = true /\ parsedLag sz slaveValues < t).
Proof.
  intros Ht Hq Hd. unfold returned.
  rewrite (replicaStatus_decoded sz t db g rows slaveValues Hq Hd).
  eexists. split; [reflexivity |].
  unfold effectiveLagCount.
  destruct (Z.eqb_spec t 0) as [-> | _]; [lia |].
  rewrite andb_true_iff, Z.ltb_lt. reflexivity.
Qed.

Lemma replicaStatus_within_iff_witness :
  exists within,
    returned (replicaStatus Bits64 30 (replicaDB (cell "12"))) g0
      = Some (within, 12) /\
    (within = true <-> true = true /\ 12 < 30).
Proof.
  apply (replicaStatus_within_iff Bits64 30 (replicaDB (cell "12")) g0
           (replicaRows (cell "12"))
           (mkSlaveStatus "10.0.0.1" "3306" "12"));
    [lia | reflexivity | reflexivity].
Defined.

(** C1, counterexample: with threshold 30 and a row whose lag is "30",
    the specification's decision holds (30 is in (0, 30]) but
    [replicaStatus 30] returns [(false, 30)]. *)
Lemma lag_equal_to_threshold_rejected :
  specWithin 30 true 30 /\
  unknownColumns (replicaRows (cell "30"))
    = Ok (mkSlaveStatus "10.0.0.1" "3306" "30") /\
  returned (replicaStatus Bits64 30 (replicaDB (cell "30"))) g0
    = Some (false, 30).
Proof.
  split; [left; lia |]. split; reflexivity.
Qed.

Lemma replicaStatus_empty sz t db g rows :
  showSlaveStatus db = inr rows ->
  rowData rows = [] ->
  replicaStatus sz t db g = Ok ((false, 0), mkGlobals 0).
Proof.
  intros Hq Hrows.
  assert (Hd : unknownColumns rows = Ok (mkSlaveStatus "" "" "")).
  { unfold unknownColumns. rewrite Hrows. reflexivity. }
  rewrite (replicaStatus_decoded sz t db g rows _ Hq Hd).
  unfold lagPresent, parsedLag. cbn -[Atoi]. rewrite Atoi_zero. reflexivity.
Qed.

Lemma replicaStatus_unavailable sz t db g :
  (exists e, showSlaveStatus db = inl e) \/
  (exists rows, showSlaveStatus db = inr rows /\ rowData rows = []) ->
  exists g', replicaStatus sz t db g = Ok ((false, 0), g').
Proof.
  intros [[e Hq] | [rows [Hq Hrows]]].
  - exists g. apply (replicaStatus_failed sz t db g e Hq).
  - exists (mkGlobals 0). apply (replicaStatus_empty sz t db g rows Hq Hrows).
Qed.

(** C4.  Whatever the threshold, [replicaStatus] on a failed status
    query, or on a status result without rows, returns [(false, 0)]. *)
Theorem replicaStatus_no_row sz t db g :
  (exists e, showSlaveStatus db = inl e) \/
  (exists rows, showSlaveStatus db = inr rows /\ rowData rows = []) ->
  returned (replicaStatus sz t db) g = Some (false, 0).
Proof.
  intros H. destruct (replicaStatus_unavailable sz t db g H) as [g' Hst].
  unfold returned. rewrite Hst. reflexivity.
Qed.

Lemma replicaStatus_no_row_witness :
  returned (replicaStatus Bits64 0 (primaryDB 3)) g0 = Some (false, 0) /\
  returned (replicaStatus Bits32 45 brokenDB) (mkGlobals 45) = Some (false, 0).
Proof.
  split.
  - apply (replicaStatus_no_row Bits64 0 (primaryDB 3) g0).
    right. exists (mkRows slaveColumns []). split; reflexivity.
  - apply (replicaStatus_no_row Bits32 45 brokenDB (mkGlobals 45)).
    left. exists ErrQuery. reflexivity.
Defined.

Lemma effectiveLagCount_zero sz : effectiveLagCount sz 0 = maxInt sz.
Proof. destruct sz; reflexivity. Qed.

Lemma effectiveLagCount_maxInt sz : effectiveLagCount sz (maxInt sz) = maxInt sz.
Proof. destruct sz; reflexivity. Qed.

(** C5.  The threshold 0 is replaced by the largest [int] before anything
    else happens: [replicaStatus 0] and [replicaStatus maxInt] return the
    same pair (and leave the same globals) on every database answer, so
    in particular on every row with a positive lag. *)
Theorem replicaStatus_zero_unbounded sz db g :
  effectiveLagCount sz 0 = maxInt sz /\
  replicaStatus sz 0 db g = replicaStatus sz (maxInt sz) db g.
Proof.
  split; [apply effectiveLagCount_zero |].
  unfold replicaStatus.
  rewrite effectiveLagCount_zero, effectiveLagCount_maxInt. reflexivity.
Qed.

(** A positive lag below the largest [int] is within threshold 0, so 0
    cannot mean that no lag is allowed. *)
Lemma replicaStatus_zero_positive_lag sz db g rows slaveValues :
  showSlaveStatus db = inr rows ->
  unknownColumns rows = Ok slaveValues ->
  0 < parsedLag sz slaveValues < maxInt sz ->
  returned (replicaStatus sz 0 db) g = Some (true, parsedLag sz slaveValues).
Proof.
  intros Hq Hd [Hpos Hlt]. unfold returned.
  rewrite (replicaStatus_decoded sz 0 db g rows slaveValues Hq Hd).
  rewrite effectiveLagCount_zero.
  assert (Hp : lagPresent slaveValues = true).
  { unfold lagPresent, parsedLag in *.
    destruct (secondsMaster slaveValues =? "")%string; [| reflexivity].
    rewrite Atoi_zero in Hpos. simpl in Hpos. lia. }
  rewrite Hp. apply Z.ltb_lt in Hlt. rewrite Hlt. reflexivity.
Qed.

(** C10.  When [Seconds_Behind_Master] is present and parses to a
    negative [n], [replicaStatus t] returns [(true, n)] for every
    threshold [t >= 0]. *)
Theorem replicaStatus_negative_lag sz t db g rows slaveValues n :
  showSlaveStatus db = inr rows ->
  unknownColumns rows = Ok slaveValues ->
  secondsMaster slaveValues <> "" ->
  fst (Atoi sz (secondsMaster slaveValues)) = n ->
  n < 0 ->
  0 <= t ->
  returned (replicaStatus sz t db) g = Some (true, n).
Proof.
  intros Hq Hd Hpresent Hn Hneg Ht. unfold returned.
  rewrite (replicaStatus_decoded sz t db g rows slaveValues Hq Hd).
  rewrite (parsedLag_present sz slaveValues Hpresent), Hn.
  rewrite (proj2 (lagPresent_true slaveValues) Hpresent). simpl.
  assert (Hlt : n < effectiveLagCount sz t).
  { unfold effectiveLagCount. destruct (Z.eqb_spec t 0).
    - rewrite maxInt_cases. pose proof (maxInt_pos sz). lia.
    - lia. }
  apply Z.ltb_lt in Hlt. rewrite Hlt. reflexivity.
Qed.

Lemma replicaStatus_negative_lag_witness :
  returned (replicaStatus Bits64 0 (replicaDB (cell "-5"))) g0
    = Some (true, -5) /\
  returned (replicaStatus Bits64 10 (replicaDB (cell "-5"))) g0
    = Some (true, -5).
Proof.
  split.
  - apply (replicaStatus_negative_lag Bits64 0 (replicaDB (cell "-5")) g0
             (replicaRows (cell "-5"))
             (mkSlaveStatus "10.0.0.1" "3306" "-5") (-5));
      [reflexivity | reflexivity | discriminate | reflexivity | lia | lia].
  - apply (replicaStatus_negative_lag Bits64 10 (replicaDB (cell "-5")) g0
             (replicaRows (cell "-5"))
             (mkSlaveStatus "10.0.0.1" "3306" "-5") (-5));
      [reflexivity | reflexivity | discriminate | reflexivity | lia | lia].
Defined.

(** ** Probes and routes *)

Lemma isReplica_failed db e :
  showSlaveStatus db = inl e -> isReplica db = Ok (false, "", "").
Proof. intros H. unfold isReplica. rewrite H. reflexivity. Qed.

Lemma isReplica_decoded db rows slaveValues :
  showSlaveStatus db = inr rows ->
  unknownColumns rows = Ok slaveValues ->
  isReplica db =
  Ok (if negb (masterHost slaveValues =? "")%string
      then (true, masterHost slaveValues, masterPort slaveValues)
      else (false, "", "")).
Proof.
  intros Hq Hd. unfold isReplica. rewrite Hq, Hd.
  destruct (masterHost slaveValues =? "")%string; reflexivity.
Qed.

Lemma isReplica_no_panic db :
  exists r h p, isReplica db = Ok (r, h, p).
Proof.
  destruct (showSlaveStatus db) as [e | rows] eqn:Hq.
  - rewrite (isReplica_failed db e Hq). eauto.
  - destruct (unknownColumns_no_panic rows) as [sv Hd].
    rewrite (isReplica_decoded db rows sv Hq Hd).
    destruct (negb (masterHost sv =? "")%string); eauto.
Qed.

Lemma routes_no_panic sz Stat path handler :
  In (path, handler) (App.router sz Stat ++ Standalone.router sz) ->
  forall db g, exists w g', handler db g = Ok (w, g').
Proof.
  intros Hin db g.
  destruct (isReplica_no_panic db) as (r & h & p & Hrep).
  destruct (replicaStatus_no_panic sz 0 db g) as ([w0 l0] & g1 & Hst).
  destruct (replicaStatus_no_panic sz (lag g) db g) as ([w1 l1] & g2 & Hst').
  unfold App.router, Standalone.router, sharedRoutes in Hin.
  cbn [app] in Hin.
  repeat (destruct Hin as [Heq | Hin];
          [injection Heq as _ <-;
           unfold App.RouteRoleMaster, Standalone.RouteRoleMaster,
             RouteStatusReadOnly, RouteStatusReadWritable, RouteStatusSingle,
             RouteStatusLeader, RouteStatusFollower, RouteStatusTopology,
             RouteRoleReplica, RouteRoleReplicaByLag, RouteRoleGalera,
             RouteReadGaleraState, RouteReadReplicationLag,
             RouteReadReplicationMaster, RouteReadReplicasCounter;
           try destruct (IsNotExist (Stat "/master"));
           try destruct (galeraClusterState db);
           unfold bind, lift, ret, getLag;
           rewrite ?Hrep; cbn beta iota; rewrite ?Hst, ?Hst';
           eauto |]).
  destruct Hin.
Qed.

Lemma follower_answer db g r h p :
  isReplica db = Ok (r, h, p) ->
  answer (RouteStatusFollower db) g = Some (r, "").
Proof. intros Hrep. unfold RouteStatusFollower. run_route. reflexivity. Qed.

Lemma standalone_master_answer db g r h p :
  isReplica db = Ok (r, h, p) ->
  answer (Standalone.RouteRoleMaster db) g
    = Some (negb (readOnly db) && negb r, "").
Proof.
  intros Hrep. unfold Standalone.RouteRoleMaster. run_route. reflexivity.
Qed.

Lemma app_master_answer Stat db g r h p :
  isReplica db = Ok (r, h, p) ->
  answer (App.RouteRoleMaster Stat db) g
    = Some (if IsNotExist (Stat "/master")
            then negb (readOnly db) && negb r && int2bool (servingBinlogs db)
            else true, "").
Proof.
  intros Hrep. unfold App.RouteRoleMaster.
  destruct (IsNotExist (Stat "/master")); run_route; reflexivity.
Qed.

(** C2 (as the code has it).  In the service under [app/], the
    master-role route answers the formula
    [!readOnly && !isReplica && binlogDumpCount > 0] when the marker file
    [/master] does not exist, and [true] whatever the signals when
    [os.Stat] does not report it missing.  The single-file service has no
    binlog term: it answers [!readOnly && !isReplica]. *)
Theorem RouteRoleMaster_formula Stat db g r h p :
  isReplica db = Ok (r, h, p) ->
  0 <= servingBinlogs db ->
  answer (App.RouteRoleMaster Stat db) g
    = Some (if IsNotExist (Stat "/master")
            then specMasterRole (readOnly db) r (servingBinlogs db)
            else true, "") /\
  answer (Standalone.RouteRoleMaster db) g
    = Some (negb (readOnly db) && negb r, "").
Proof.
  intros Hrep Hcount. split.
  - rewrite (app_master_answer Stat db g r h p Hrep).
    unfold specMasterRole. rewrite (int2bool_pos _ Hcount). reflexivity.
  - apply (standalone_master_answer db g r h p Hrep).
Qed.

Lemma RouteRoleMaster_formula_witness :
  answer (App.RouteRoleMaster markerAbsent (primaryDB 3)) g0
    = Some (specMasterRole false false 3, "") /\
  answer (Standalone.RouteRoleMaster (primaryDB 3)) g0 = Some (true, "").
Proof.
  apply (RouteRoleMaster_formula markerAbsent (primaryDB 3) g0 false "" "");
    [reflexivity | cbv [servingBinlogs primaryDB countBinlogDump]; lia].
Defined.

(** C2, counterexample.  With [/master] present the [app/] route answers
    true for a read-only replica that serves no binlog; the single-file
    route answers true for a writable server that serves no binlog.  The
    formula of the specification is false on both. *)
Lemma master_role_without_binlog_dump :
  (readOnly (replicaDB (cell "0")) = true /\
   isReplica (replicaDB (cell "0")) = Ok (true, "10.0.0.1", "3306") /\
   servingBinlogs (replicaDB (cell "0")) = 0 /\
   specMasterRole true true 0 = false /\
   answer (App.RouteRoleMaster markerPresent (replicaDB (cell "0"))) g0
     = Some (true, "")) /\
  (readOnly (primaryDB 0) = false /\
   isReplica (primaryDB 0) = Ok (false, "", "") /\
   servingBinlogs (primaryDB 0) = 0 /\
   specMasterRole false false 0 = false /\
   answer (Standalone.RouteRoleMaster (primaryDB 0)) g0 = Some (true, "")).
Proof. repeat split; reflexivity. Qed.

Lemma assign_masterHost res col sNum :
  col <> "Master_Host" -> masterHost (assign res col sNum) = masterHost res.
Proof.
  intros H. unfold assign.
  destruct (String.eqb_spec col "Master_Host"); [contradiction |].
  destruct (col =? "Master_Port")%string; [reflexivity |].
  destruct (col =? "Seconds_Behind_Master")%string; reflexivity.
Qed.

Lemma assign_masterPort res col sNum :
  col <> "Master_Port" -> masterPort (assign res col sNum) = masterPort res.
Proof.
  intros H. unfold assign.
  destruct (col =? "Master_Host")%string; [reflexivity |].
  destruct (String.eqb_spec col "Master_Port"); [contradiction |].
  destruct (col =? "Seconds_Behind_Master")%string; reflexivity.
Qed.

Lemma assign_secondsMaster res col sNum :
  col <> "Seconds_Behind_Master" ->
  secondsMaster (assign res col sNum) = secondsMaster res.
Proof.
  intros H. unfold assign.
  destruct (col =? "Master_Host")%string; [reflexivity |].
  destruct (col =? "Master_Port")%string; [reflexivity |].
  destruct (String.eqb_spec col "Seconds_Behind_Master");
    [contradiction | reflexivity].
Qed.

(** Storing the cells of columns other than [col] leaves the field of
    [col] as it was. *)
Lemma stored_untouched col (decoded : list (string * string)) :
  ~ In col (map fst decoded) ->
  forall res,
    let res' := fold_left (fun r d => assign r (fst d) (snd d)) decoded res in
    (col = "Master_Host" -> masterHost res' = masterHost res) /\
    (col = "Master_Port" -> masterPort res' = masterPort res) /\
    (col = "Seconds_Behind_Master" -> secondsMaster res' = secondsMaster res).
Proof.
  induction decoded as [| [c s] decoded IH]; intros Hnotin res; cbn zeta.
  - repeat split; reflexivity.
  - cbn [map fst In] in Hnotin. cbn [fold_left fst snd].
    assert (Hc : c <> col) by tauto.
    assert (Hrest : ~ In col (map fst decoded)) by tauto.
    destruct (IH Hrest (assign res c s)) as (Hh & Hp & Hs).
    repeat split; intros ->.
    + rewrite (Hh eq_refl). apply assign_masterHost. exact Hc.
    + rewrite (Hp eq_refl). apply assign_masterPort. exact Hc.
    + rewrite (Hs eq_refl). apply assign_secondsMaster. exact Hc.
Qed.

(** C3 (as the code has it).  On a single row whose first NULL cell is in
    column [col], all cells in front of it being text: the decoder raises
    no error, stores the cells of the recognized columns in front of
    [col], and returns at the NULL cell, so the field of [col] stays
    unset and the columns behind it are not looked at; every field is
    empty or the text of one of the cells in front (never a rendering of
    NULL). *)
Theorem unknownColumns_null_cell (decoded : list (string * string))
    (col : string) (columns' : list string) (after : list iface) :
  ~ In col (map fst decoded) ->
  exists res,
    unknownColumns
      (mkRows (map fst decoded ++ col :: columns')%list
              [(map (fun d => cell (snd d)) decoded ++ VNil :: after)%list])
      = Ok res /\
    res = fold_left (fun r d => assign r (fst d) (snd d)) decoded
                    (mkSlaveStatus "" "" "") /\
    (col = "Master_Host" -> masterHost res = "") /\
    (col = "Master_Port" -> masterPort res = "") /\
    (col = "Seconds_Behind_Master" -> secondsMaster res = "") /\
    fromCells [map (fun d => cell (snd d)) decoded] res.
Proof.
  intros Hnotin.
  pose proof (columnsLoop_stops decoded [] VNil col columns' after
                (mkSlaveStatus "" "" "") eq_refl) as Hstop.
  cbn [length app] in Hstop.
  eexists. split.
  { unfold unknownColumns. cbn [Columns rowData rowsLoop].
    rewrite Hstop. reflexivity. }
  split; [reflexivity |].
  destruct (stored_untouched col decoded Hnotin (mkSlaveStatus "" "" ""))
    as (Hh & Hp & Hs).
  split; [exact Hh |]. split; [exact Hp |]. split; [exact Hs |].
  clear. set (start := mkSlaveStatus "" "" "").
  assert (Hstart : fromCells [map (fun d => cell (snd d)) decoded] start)
    by (repeat split; left; reflexivity).
  assert (Hgen : forall done todo res,
             decoded = (done ++ todo)%list ->
             fromCells [map (fun d => cell (snd d)) decoded] res ->
             fromCells [map (fun d => cell (snd d)) decoded]
               (fold_left (fun r d => assign r (fst d) (snd d)) todo res)).
  { intros done todo. revert done.
    induction todo as [| [c s] todo IH]; intros done res Heq Hres.
    - exact Hres.
    - cbn [fold_left fst snd]. apply (IH (done ++ [(c, s)])%list).
      + rewrite <- app_assoc. exact Heq.
      + apply assign_fromCells; [exact Hres |].
        right. eexists. split; [left; reflexivity |].
        rewrite Heq, map_app. apply in_or_app. right. left. reflexivity. }
  apply (Hgen [] decoded start eq_refl Hstart).
Qed.

Lemma unknownColumns_null_cell_witness :
  exists res,
    unknownColumns (replicaRows VNil) = Ok res /\
    res = mkSlaveStatus "10.0.0.1" "3306" "" /\
    ("Seconds_Behind_Master" = "Master_Host" -> masterHost res = "") /\
    ("Seconds_Behind_Master" = "Master_Port" -> masterPort res = "") /\
    ("Seconds_Behind_Master" = "Seconds_Behind_Master" ->
     secondsMaster res = "") /\
    fromCells
      [[cell "Waiting for master to send event"; cell "10.0.0.1";
        cell "repl"; cell "3306"; cell "60"; cell "Yes"; cell "Yes"]] res.
Proof.
  apply (unknownColumns_null_cell
           [("Slave_IO_State", "Waiting for master to send event");
            ("Master_Host", "10.0.0.1"); ("Master_User", "repl");
            ("Master_Port", "3306"); ("Connect_Retry", "60");
            ("Slave_IO_Running", "Yes"); ("Slave_SQL_Running", "Yes")]
           "Seconds_Behind_Master" ["Last_IO_Error"] [cell ""]).
  cbn [map fst In].
  intros [H | [H | [H | [H | [H | [H | [H | []]]]]]]]; discriminate H.
Defined.

(** C3, counterexample.  A row [Master_Host = NULL], [Master_Port =
    "3306"], [Seconds_Behind_Master = "0"]: the decoder returns at the
    NULL cell, so the port and the lag, which come after it, are not
    decoded either. *)
Lemma null_cell_hides_later_columns :
  exists res,
    unknownColumns nullHostRows = Ok res /\
    masterHost res = "" /\
    masterPort res <> "3306" /\
    secondsMaster res <> "0".
Proof.
  exists (mkSlaveStatus "" "" ""). repeat split; discriminate.
Qed.

(** A NULL lag behind the host and the port loses nothing. *)
Example unknownColumns_stopped_replica :
  unknownColumns (replicaRows VNil) = Ok (mkSlaveStatus "10.0.0.1" "3306" "").
Proof. reflexivity. Qed.

(** C6.  A read-only server whose decoded status row names a master and
    has [Seconds_Behind_Master = "0"]: the follower route and the
    replica-role route answer true, and the lag route reports "0". *)
Theorem synced_replica_routes sz db g rows slaveValues :
  readOnly db = true ->
  showSlaveStatus db = inr rows ->
  unknownColumns rows = Ok slaveValues ->
  masterHost slaveValues <> "" ->
  secondsMaster slaveValues = "0" ->
  answer (RouteStatusFollower db) g = Some (true, "") /\
  answer (RouteRoleReplica sz db) g = Some (true, "") /\
  answer (RouteReadReplicationLag sz db) g = Some (true, "0").
Proof.
  intros Hro Hq Hd Hhost Hsec.
  pose proof (isReplica_decoded db rows slaveValues Hq Hd) as Hrep.
  destruct (String.eqb_spec (masterHost slaveValues) ""); [contradiction |].
  cbn [negb] in Hrep.
  pose proof (replicaStatus_decoded sz 0 db g rows slaveValues Hq Hd) as Hst.
  assert (Hlag : parsedLag sz slaveValues = 0).
  { unfold parsedLag. rewrite Hsec. cbn -[Atoi]. rewrite Atoi_zero.
    reflexivity. }
  assert (Hp : lagPresent slaveValues = true).
  { unfold lagPresent. rewrite Hsec. reflexivity. }
  rewrite Hlag, Hp, effectiveLagCount_zero in Hst.
  pose proof (maxInt_pos sz) as Hmax. apply Z.ltb_lt in Hmax.
  rewrite Hmax in Hst. cbn [andb] in Hst.
  split; [| split].
  - apply (follower_answer db g _ _ _ Hrep).
  - unfold RouteRoleReplica. run_route. rewrite Hro. reflexivity.
  - unfold RouteReadReplicationLag. run_route. reflexivity.
Qed.

Lemma synced_replica_routes_witness :
  answer (RouteStatusFollower (replicaDB (cell "0"))) g0 = Some (true, "") /\
  answer (RouteRoleReplica Bits64 (replicaDB (cell "0"))) g0
    = Some (true, "") /\
  answer (RouteReadReplicationLag Bits64 (replicaDB (cell "0"))) g0
    = Some (true, "0").
Proof.
  apply (synced_replica_routes Bits64 (replicaDB (cell "0")) g0
           (replicaRows (cell "0")) (mkSlaveStatus "10.0.0.1" "3306" "0"));
    [reflexivity | reflexivity | reflexivity | discriminate | reflexivity].
Defined.

Lemma isReplica_true_inv db h p :
  isReplica db = Ok (true, h, p) ->
  exists rows slaveValues,
    showSlaveStatus db = inr rows /\
    unknownColumns rows = Ok slaveValues /\
    masterHost slaveValues <> "" /\
    h = masterHost slaveValues /\ p = masterPort slaveValues.
Proof.
  intros Hrep. destruct (showSlaveStatus db) as [e | rows] eqn:Hq.
  - rewrite (isReplica_failed db e Hq) in Hrep. discriminate.
  - destruct (unknownColumns_no_panic rows) as [sv Hd].
    rewrite (isReplica_decoded db rows sv Hq Hd) in Hrep.
    destruct (String.eqb_spec (masterHost sv) ""); cbn [negb] in Hrep;
      [discriminate |].
    injection Hrep as <- <-. exists rows, sv. auto.
Qed.

(** The master host is what makes the follower: a status row that has
    the same lag but names no master answers the replica role, yet not
    the follower route, and its lag detail is empty. *)
Example hostless_row_routes :
  let db := mkDB (inr ("read_only", "ON")) (inr hostlessRows)
                 (inr 0) (inl ErrNoRows) in
  answer (RouteStatusFollower db) g0 = Some (false, "") /\
  answer (RouteRoleReplica Bits64 db) g0 = Some (true, "") /\
  answer (RouteReadReplicationLag Bits64 db) g0 = Some (false, "").
Proof. repeat split; reflexivity. Qed.

(** C7 (as the code has it).  Read-only and master role never both
    answer true in the single-file service, nor under [app/] as long as
    [/master] does not exist.  When the follower route answers true, the
    status row was decoded with a master host, and [replicaStatus 0] is
    within threshold exactly when [Seconds_Behind_Master] was decoded too
    and the parsed lag is below the largest [int]. *)
Theorem roles_consistent sz Stat db g :
  (answer (RouteStatusReadOnly db) g = Some (true, "") ->
   answer (Standalone.RouteRoleMaster db) g = Some (false, "")) /\
  (IsNotExist (Stat "/master") = true ->
   answer (RouteStatusReadOnly db) g = Some (true, "") ->
   answer (App.RouteRoleMaster Stat db) g = Some (false, "")) /\
  (answer (RouteStatusFollower db) g = Some (true, "") ->
   exists rows slaveValues within,
     showSlaveStatus db = inr rows /\
     unknownColumns rows = Ok slaveValues /\
     masterHost slaveValues <> "" /\
     returned (replicaStatus sz 0 db) g
       = Some (within, parsedLag sz slaveValues) /\
     (within = true <->
      lagPresent slaveValues = true /\
      parsedLag sz slaveValues < maxInt sz)).
Proof.
  destruct (isReplica_no_panic db) as (r & h & p & Hrep).
  assert (Hro : answer (RouteStatusReadOnly db) g = Some (true, "") ->
                readOnly db = true).
  { unfold RouteStatusReadOnly. run_route. intros H. injection H as H.
    exact H. }
  split; [| split].
  - intros H. rewrite (standalone_master_answer db g r h p Hrep).
    rewrite (Hro H). reflexivity.
  - intros Hstat H. rewrite (app_master_answer Stat db g r h p Hrep).
    rewrite Hstat, (Hro H). reflexivity.
  - rewrite (follower_answer db g r h p Hrep). intros H.
    injection H as ->.
    destruct (isReplica_true_inv db h p Hrep)
      as (rows & sv & Hq & Hd & Hhost & _ & _).
    exists rows, sv, (lagPresent sv && (parsedLag sz sv <? maxInt sz)).
    split; [exact Hq |]. split; [exact Hd |]. split; [exact Hhost |].
    split.
    + unfold returned.
      rewrite (replicaStatus_decoded sz 0 db g rows sv Hq Hd).
      rewrite effectiveLagCount_zero. reflexivity.
    + rewrite andb_true_iff, Z.ltb_lt. reflexivity.
Qed.

Lemma roles_consistent_witness :
  answer (Standalone.RouteRoleMaster (replicaDB (cell "0"))) g0
    = Some (false, "") /\
  answer (App.RouteRoleMaster markerAbsent (replicaDB (cell "0"))) g0
    = Some (false, "") /\
  exists rows slaveValues within,
    showSlaveStatus (replicaDB (cell "0")) = inr rows /\
    unknownColumns rows = Ok slaveValues /\
    masterHost slaveValues <> "" /\
    returned (replicaStatus Bits64 0 (replicaDB (cell "0"))) g0
      = Some (within, parsedLag Bits64 slaveValues) /\
    (within = true <->
     lagPresent slaveValues = true /\
     parsedLag Bits64 slaveValues < maxInt Bits64).
Proof.
  pose proof (roles_consistent Bits64 markerAbsent (replicaDB (cell "0")) g0)
    as (H1 & H2 & H3).
  split; [apply H1; reflexivity |].
  split; [apply H2; reflexivity |].
  apply H3; reflexivity.
Defined.

(** C7, counterexample.  A replica whose [Seconds_Behind_Master] is NULL
    (replication stopped) is a follower, yet [replicaStatus 0] is not
    within threshold and the replica role answers false.  On the same
    read-only server, the [app/] master role answers true once [/master]
    exists. *)
Lemma follower_outside_unbounded_threshold :
  answer (RouteStatusFollower (replicaDB VNil)) g0 = Some (true, "") /\
  returned (replicaStatus Bits64 0 (replicaDB VNil)) g0 = Some (false, 0) /\
  answer (RouteRoleReplica Bits64 (replicaDB VNil)) g0 = Some (false, "") /\
  answer (RouteStatusReadOnly (replicaDB VNil)) g0 = Some (true, "") /\
  answer (App.RouteRoleMaster markerPresent (replicaDB VNil)) g0
    = Some (true, "").
Proof. repeat split; reflexivity. Qed.

Lemma isReplica_no_row db :
  (exists e, showSlaveStatus db = inl e) \/
  (exists rows, showSlaveStatus db = inr rows /\ rowData rows = []) ->
  isReplica db = Ok (false, "", "").
Proof.
  intros [[e Hq] | [rows [Hq Hrows]]].
  - apply (isReplica_failed db e Hq).
  - assert (Hd : unknownColumns rows = Ok (mkSlaveStatus "" "" "")).
    { unfold unknownColumns. rewrite Hrows. reflexivity. }
    rewrite (isReplica_decoded db rows _ Hq Hd). reflexivity.
Qed.

(** C8 (as the code has it).  Each probe, when its own statement fails
    or gives no row, yields its negative value whatever the other probes
    answer, and the routes that rest on it answer accordingly: read-only
    false (read-write true, both replica roles false), not a replica
    with empty detail and lag [(false, 0)], count 0 (leader false,
    counter detail "0"), galera [(false, "")].  No handler panics.  When
    every probe is unavailable, every route answers its formula on those
    values: false with empty detail for read-only, leader, follower,
    topology, both replica roles, galera and the three detail reads, but
    true for read-write, for single and for the single-file master role
    (under [app/] the master role is false unless [/master] exists). *)
Theorem unavailable_probes sz Stat db g :
  ((exists e, showReadOnly db = inl e) ->
   readOnly db = false /\
   answer (RouteStatusReadOnly db) g = Some (false, "") /\
   answer (RouteStatusReadWritable db) g = Some (true, "") /\
   answer (RouteRoleReplica sz db) g = Some (false, "") /\
   answer (RouteRoleReplicaByLag sz db) g = Some (false, "")) /\
  ((exists e, showSlaveStatus db = inl e) \/
   (exists rows, showSlaveStatus db = inr rows /\ rowData rows = []) ->
   isReplica db = Ok (false, "", "") /\
   (forall t, returned (replicaStatus sz t db) g = Some (false, 0)) /\
   answer (RouteStatusFollower db) g = Some (false, "") /\
   answer (RouteRoleReplica sz db) g = Some (false, "") /\
   answer (RouteRoleReplicaByLag sz db) g = Some (false, "") /\
   answer (RouteReadReplicationLag sz db) g = Some (false, "") /\
   answer (RouteReadReplicationMaster db) g = Some (false, "")) /\
  ((exists e, countBinlogDump db = inl e) ->
   servingBinlogs db = 0 /\
   answer (RouteStatusLeader db) g = Some (false, "") /\
   answer (RouteReadReplicasCounter db) g = Some (false, "0")) /\
  ((exists e, selectWsrepState db = inl e) ->
   galeraClusterState db = (false, "") /\
   answer (RouteRoleGalera db) g = Some (false, "") /\
   answer (RouteReadGaleraState db) g = Some (false, "")) /\
  (forall path handler,
     In (path, handler) (App.router sz Stat ++ Standalone.router sz) ->
     exists w g', handler db g = Ok (w, g')) /\
  (unavailable db ->
   (answer (RouteStatusReadOnly db) g = Some (false, "") /\
    answer (RouteStatusLeader db) g = Some (false, "") /\
    answer (RouteStatusFollower db) g = Some (false, "") /\
    answer (RouteStatusTopology sz db) g = Some (false, "") /\
    answer (RouteRoleReplica sz db) g = Some (false, "") /\
    answer (RouteRoleReplicaByLag sz db) g = Some (false, "") /\
    answer (RouteRoleGalera db) g = Some (false, "") /\
    answer (RouteReadGaleraState db) g = Some (false, "") /\
    answer (RouteReadReplicationLag sz db) g = Some (false, "") /\
    answer (RouteReadReplicationMaster db) g = Some (false, "")) /\
   (answer (RouteStatusReadWritable db) g = Some (true, "") /\
    answer (RouteStatusSingle db) g = Some (true, "") /\
    answer (Standalone.RouteRoleMaster db) g = Some (true, "") /\
    answer (App.RouteRoleMaster Stat db) g
      = Some (negb (IsNotExist (Stat "/master")), "") /\
    answer (RouteReadReplicasCounter db) g = Some (false, "0"))).
Proof.
  destruct (isReplica_no_panic db) as (r & h & p & Hrep0).
  destruct (replicaStatus_no_panic sz 0 db g) as ([w0 l0] & ga & Hsta).
  destruct (replicaStatus_no_panic sz (lag g) db g) as ([w1 l1] & gb & Hstb).
  assert (Hprobe1 : (exists e, showReadOnly db = inl e) -> readOnly db = false).
  { intros [e He]. unfold readOnly. rewrite He. reflexivity. }
  assert (Hprobe3 : (exists e, countBinlogDump db = inl e) ->
                    servingBinlogs db = 0).
  { intros [e He]. unfold servingBinlogs. rewrite He. reflexivity. }
  assert (Hprobe4 : (exists e, selectWsrepState db = inl e) ->
                    galeraClusterState db = (false, "")).
  { intros [e He]. unfold galeraClusterState. rewrite He. reflexivity. }
  split; [| split; [| split; [| split; [| split]]]].
  - intros Hfail. pose proof (Hprobe1 Hfail) as Hreadonly.
    split; [exact Hreadonly |].
    unfold RouteStatusReadOnly, RouteStatusReadWritable, RouteRoleReplica,
      RouteRoleReplicaByLag.
    rewrite Hreadonly. repeat split; run_route; reflexivity.
  - intros Hslave. pose proof (isReplica_no_row db Hslave) as Hrep.
    destruct (replicaStatus_unavailable sz 0 db g Hslave) as [g1 Hst0].
    destruct (replicaStatus_unavailable sz (lag g) db g Hslave) as [g2 Hst1].
    split; [exact Hrep |]. split.
    { intros t.
      destruct (replicaStatus_unavailable sz t db g Hslave) as [g' Hst].
      unfold returned. rewrite Hst. reflexivity. }
    clear Hrep0 Hsta Hstb.
    unfold RouteStatusFollower, RouteRoleReplica, RouteRoleReplicaByLag,
      RouteReadReplicationLag, RouteReadReplicationMaster.
    repeat split; run_route; rewrite ?Hst1, ?andb_false_r; reflexivity.
  - intros Hfail. pose proof (Hprobe3 Hfail) as Hserve.
    split; [exact Hserve |].
    unfold RouteStatusLeader, RouteReadReplicasCounter. rewrite Hserve.
    split; run_route; rewrite ?andb_false_r; reflexivity.
  - intros Hfail. pose proof (Hprobe4 Hfail) as Hgalera.
    split; [exact Hgalera |].
    unfold RouteRoleGalera, RouteReadGaleraState. rewrite Hgalera.
    split; reflexivity.
  - intros path handler Hin. apply (routes_no_panic sz Stat path handler Hin).
  - clear Hrep0 Hsta Hstb.
    intros (Hro & Hslave & Hbin & Hgal).
    pose proof (Hprobe1 Hro) as Hreadonly.
    pose proof (isReplica_no_row db Hslave) as Hrep.
    pose proof (Hprobe3 Hbin) as Hserve.
    pose proof (Hprobe4 Hgal) as Hgalera.
    destruct (replicaStatus_unavailable sz 0 db g Hslave) as [g1 Hst0].
    destruct (replicaStatus_unavailable sz (lag g) db g Hslave) as [g2 Hst1].
    split.
    + unfold RouteStatusReadOnly, RouteStatusLeader, RouteStatusFollower,
        RouteStatusTopology, RouteRoleReplica, RouteRoleReplicaByLag,
        RouteRoleGalera, RouteReadGaleraState, RouteReadReplicationLag,
        RouteReadReplicationMaster.
      rewrite Hreadonly, Hserve, Hgalera.
      repeat split; run_route; rewrite ?Hst1; reflexivity.
    + unfold RouteStatusReadWritable, RouteStatusSingle,
        Standalone.RouteRoleMaster, App.RouteRoleMaster,
        RouteReadReplicasCounter.
      rewrite Hreadonly, Hserve.
      repeat split; try (run_route; reflexivity).
      destruct (IsNotExist (Stat "/master")); run_route; reflexivity.
Qed.

Lemma unavailable_probes_witness :
  (readOnly readOnlyFailsDB = false /\
   answer (RouteStatusReadWritable readOnlyFailsDB) g0 = Some (true, "") /\
   answer (RouteRoleReplica Bits64 readOnlyFailsDB) g0 = Some (false, "")) /\
  (isReplica (primaryDB 3) = Ok (false, "", "") /\
   answer (RouteStatusFollower (primaryDB 3)) g0 = Some (false, "")) /\
  answer (RouteStatusReadWritable brokenDB) g0 = Some (true, "") /\
  answer (RouteStatusFollower brokenDB) g0 = Some (false, "").
Proof.
  pose proof (unavailable_probes Bits64 markerAbsent readOnlyFailsDB g0)
    as (Hro & _).
  pose proof (unavailable_probes Bits64 markerAbsent (primaryDB 3) g0)
    as (_ & Hrep & _).
  pose proof (unavailable_probes Bits64 markerAbsent brokenDB g0)
    as (_ & _ & _ & _ & _ & Hall).
  assert (Hun : unavailable brokenDB).
  { repeat split; try (exists ErrQuery; reflexivity).
    left. exists ErrQuery. reflexivity. }
  split; [| split; [| split]].
  - assert (H1 : exists e, showReadOnly readOnlyFailsDB = inl e)
      by (exists ErrQuery; reflexivity).
    split; [apply (Hro H1) |]. split; apply (Hro H1).
  - assert (H2 : (exists e, showSlaveStatus (primaryDB 3) = inl e) \/
                 (exists rows, showSlaveStatus (primaryDB 3) = inr rows /\
                               rowData rows = []))
      by (right; exists (mkRows slaveColumns []); split; reflexivity).
    split; apply (Hrep H2).
  - apply (Hall Hun).
  - apply (Hall Hun).
Defined.

(** C8, counterexample.  On a connection where every statement fails,
    the read-write and single routes answer true, not false. *)
Lemma unavailable_probes_answer_true :
  unavailable brokenDB /\
  answer (RouteStatusReadWritable brokenDB) g0 = Some (true, "") /\
  answer (RouteStatusSingle brokenDB) g0 = Some (true, "") /\
  answer (Standalone.RouteRoleMaster brokenDB) g0 = Some (true, "").
Proof.
  split; [| repeat split; reflexivity].
  repeat split; try (exists ErrQuery; reflexivity).
  left. exists ErrQuery. reflexivity.
Qed.

(** C9 (as the code has it).  [isReplica] is true exactly when the
    decoded [Master_Host] is not empty; when it is false the host and the
    port it returns are empty, and so are the details of the master and
    the lag reads; a failed status query and a status result without rows
    give false, with lag [(false, 0)].  The lag is not bound to it:
    whatever [isReplica] says, [replicaStatus 0] returns the lag parsed
    from the decoded row, within threshold when the lag field is present
    and below the largest [int]. *)
Theorem replication_row_invariant sz db g :
  exists r h p within lagValue,
    isReplica db = Ok (r, h, p) /\
    returned (replicaStatus sz 0 db) g = Some (within, lagValue) /\
    (r = false -> h = "" /\ p = "") /\
    (r = true <->
     exists rows slaveValues,
       showSlaveStatus db = inr rows /\
       unknownColumns rows = Ok slaveValues /\
       masterHost slaveValues <> "") /\
    ((exists e, showSlaveStatus db = inl e) \/
     (exists rows, showSlaveStatus db = inr rows /\ rowData rows = []) ->
     r = false /\ within = false /\ lagValue = 0) /\
    (forall rows slaveValues,
       showSlaveStatus db = inr rows ->
       unknownColumns rows = Ok slaveValues ->
       lagValue = parsedLag sz slaveValues /\
       within = lagPresent slaveValues
                && (parsedLag sz slaveValues <? maxInt sz)) /\
    answer (RouteReadReplicationMaster db) g
      = Some (r, if r then h ++ ":" ++ p else "") /\
    answer (RouteReadReplicationLag sz db) g
      = Some (r, if r then Itoa lagValue else "").
Proof.
  destruct (replicaStatus_no_panic sz 0 db g) as ([w lagValue] & g1 & Hst).
  assert (Hret : returned (replicaStatus sz 0 db) g = Some (w, lagValue)).
  { unfold returned. rewrite Hst. reflexivity. }
  assert (Hnone : (exists e, showSlaveStatus db = inl e) \/
                  (exists rows, showSlaveStatus db = inr rows /\
                                rowData rows = []) ->
                  w = false /\ lagValue = 0).
  { intros Hslave.
    destruct (replicaStatus_unavailable sz 0 db g Hslave) as [g' Hst'].
    rewrite Hst in Hst'. injection Hst' as -> -> _. split; reflexivity. }
  assert (Hlag : forall rows slaveValues,
             showSlaveStatus db = inr rows ->
             unknownColumns rows = Ok slaveValues ->
             lagValue = parsedLag sz slaveValues /\
             w = lagPresent slaveValues
                 && (parsedLag sz slaveValues <? maxInt sz)).
  { intros rows sv Hq Hd.
    rewrite (replicaStatus_decoded sz 0 db g rows sv Hq Hd) in Hst.
    rewrite effectiveLagCount_zero in Hst.
    injection Hst as <- <- _. split; reflexivity. }
  assert (Hroutes : forall r h p, isReplica db = Ok (r, h, p) ->
            (r = false -> h = "") ->
            answer (RouteReadReplicationMaster db) g
              = Some (r, if r then h ++ ":" ++ p else "") /\
            answer (RouteReadReplicationLag sz db) g
              = Some (r, if r then Itoa lagValue else "")).
  { intros r h p Hrep Hh.
    unfold RouteReadReplicationMaster, RouteReadReplicationLag.
    split; run_route; [| reflexivity].
    destruct r; [reflexivity |]. rewrite (Hh eq_refl). reflexivity. }
  destruct (showSlaveStatus db) as [e | rows] eqn:Hq.
  - pose proof (isReplica_failed db e Hq) as Hrep.
    exists false, "", "", w, lagValue.
    split; [exact Hrep |]. split; [exact Hret |]. split; [auto |].
    split; [split; [discriminate | intros (? & ? & ? & _); discriminate] |].
    split; [intros Hslave; destruct (Hnone Hslave); auto |].
    split; [exact Hlag |].
    apply (Hroutes _ _ _ Hrep). reflexivity.
  - destruct (unknownColumns_no_panic rows) as [sv Hd].
    pose proof (isReplica_decoded db rows sv Hq Hd) as Hrep.
    destruct (String.eqb_spec (masterHost sv) "") as [Hempty | Hhost];
      cbn [negb] in Hrep.
    + exists false, "", "", w, lagValue.
      split; [exact Hrep |]. split; [exact Hret |]. split; [auto |].
      split; [split; [discriminate |] |].
      { intros (rows' & sv' & Hq' & Hd' & Hhost').
        injection Hq' as <-. rewrite Hd in Hd'. injection Hd' as <-.
        contradiction. }
      split; [intros Hslave; destruct (Hnone Hslave); auto |].
      split; [exact Hlag |].
      apply (Hroutes _ _ _ Hrep). reflexivity.
    + exists true, (masterHost sv), (masterPort sv), w, lagValue.
      split; [exact Hrep |]. split; [exact Hret |]. split; [discriminate |].
      split; [split; [intros _; exists rows, sv; auto | reflexivity] |].
      split.
      { intros Hslave. destruct (Hnone Hslave) as [Hw Hl].
        destruct Hslave as [[e He] | [rows' [Hq' Hrows]]]; [discriminate |].
        injection Hq' as <-. unfold unknownColumns in Hd.
        rewrite Hrows in Hd. injection Hd as <-. contradiction. }
      split; [exact Hlag |].
      apply (Hroutes _ _ _ Hrep). discriminate.
Qed.

(** C9, counterexample.  A status row with an empty [Master_Host], port
    "3306" and lag "5" on a read-only server: [isReplica] is false, yet
    the decoded row keeps the port and the lag, [replicaStatus 0] returns
    [(true, 5)] and the replica role answers true. *)
Lemma not_a_replica_with_port_and_lag :
  unknownColumns emptyHostRows = Ok (mkSlaveStatus "" "3306" "5") /\
  isReplica emptyHostDB = Ok (false, "", "") /\
  returned (replicaStatus Bits64 0 emptyHostDB) g0 = Some (true, 5) /\
  answer (RouteRoleReplica Bits64 emptyHostDB) g0 = Some (true, "").
Proof. repeat split; reflexivity. Qed.

(** * Further properties *)

(** ** The row decoder on whole result sets *)

Lemma columnsLoop_text columns :
  forall texts before res,
    length texts = length columns ->
    columnsLoop columns (length before) (before ++ map cell texts) res
    = Ok (Next (storeRow columns res texts)).
Proof.
  induction columns as [| col columns IH]; intros texts before res Hlen.
  - destruct texts; [reflexivity | discriminate].
  - destruct texts as [| t texts]; [discriminate |].
    injection Hlen as Hlen. cbn [map columnsLoop].
    rewrite nth_middle. cbn.
    specialize (IH texts (before ++ [cell t])%list (assign res col t) Hlen).
    rewrite length_app in IH. cbn [length] in IH.
    rewrite Nat.add_1_r, <- app_assoc in IH. exact IH.
Qed.

Lemma rowsLoop_text columns texts :
  Forall (fun row => length row = length columns) texts ->
  forall res,
    rowsLoop columns (map (map cell) texts) res
    = Ok (fold_left (storeRow columns) texts res).
Proof.
  induction 1 as [| row texts Hrow _ IH]; intros res; [reflexivity |].
  cbn [map rowsLoop fold_left].
  pose proof (columnsLoop_text columns row [] res Hrow) as Hloop.
  cbn [length app] in Hloop. rewrite Hloop. apply IH.
Qed.

Lemma combine_split {A B} (l1 : list A) :
  forall (l1' : list B) l2 l2',
    length l1 = length l1' ->
    combine (l1 ++ l2) (l1' ++ l2') = (combine l1 l1' ++ combine l2 l2')%list.
Proof.
  induction l1 as [| a l1 IH]; intros [| b l1'] l2 l2' Hlen;
    try discriminate; [reflexivity |].
  cbn. f_equal. apply IH. injection Hlen as Hlen. exact Hlen.
Qed.

(** The cell under the last column named [col] is what the field of
    [col] holds after a row of text, wherever the column stands. *)
Lemma storeRow_lookup pre col post tpre t tpost res :
  length pre = length tpre ->
  ~ In col post ->
  let res' := storeRow (pre ++ col :: post) res (tpre ++ t :: tpost) in
  (col = "Master_Host" -> masterHost res' = t) /\
  (col = "Master_Port" -> masterPort res' = t) /\
  (col = "Seconds_Behind_Master" -> secondsMaster res' = t).
Proof.
  intros Hlen Hpost. unfold storeRow.
  rewrite (combine_split pre tpre (col :: post) (t :: tpost) Hlen).
  rewrite fold_left_app. cbn [combine fold_left fst snd].
  set (r0 := fold_left _ (combine pre tpre) res).
  assert (Hnot : ~ In col (map fst (combine post tpost))).
  { intros Hin. apply Hpost. apply in_map_iff in Hin.
    destruct Hin as [[c s] [<- Hin]]. apply (in_combine_l _ _ _ _ Hin). }
  destruct (stored_untouched col (combine post tpost) Hnot (assign r0 col t))
    as (Hh & Hp & Hs).
  repeat split; intros ->.
  - rewrite (Hh eq_refl). reflexivity.
  - rewrite (Hp eq_refl). reflexivity.
  - rewrite (Hs eq_refl). reflexivity.
Qed.

(** X1: with several status rows of text, the fields hold the cells of
    the last row, in whatever position their columns stand. *)
Theorem unknownColumns_last_row pre col post earlier tpre t tpost :
  length pre = length tpre ->
  length post = length tpost ->
  ~ In col post ->
  Forall (fun row => length row = length (pre ++ col :: post)) earlier ->
  exists res,
    unknownColumns
      (mkRows (pre ++ col :: post)
              (map (map cell) (earlier ++ [tpre ++ t :: tpost])%list))
      = Ok res /\
    (col = "Master_Host" -> masterHost res = t) /\
    (col = "Master_Port" -> masterPort res = t) /\
    (col = "Seconds_Behind_Master" -> secondsMaster res = t).
Proof.
  intros Hpre Hpost Hnot Hearlier.
  assert (Hall : Forall (fun row => length row = length (pre ++ col :: post))
                        (earlier ++ [tpre ++ t :: tpost])%list).
  { apply Forall_app. split; [exact Hearlier |].
    constructor; [| constructor].
    rewrite !length_app. cbn [length]. lia. }
  eexists. split.
  - unfold unknownColumns. cbn [Columns rowData].
    apply (rowsLoop_text _ _ Hall).
  - rewrite fold_left_app. cbn [fold_left].
    apply (storeRow_lookup pre col post tpre t tpost _ Hpre Hnot).
Qed.

Lemma unknownColumns_last_row_witness :
  exists res,
    unknownColumns
      (mkRows ["Seconds_Behind_Master"; "Master_Port"; "Master_Host"; "Extra"]
              (map (map cell)
                   ([["0"; "3306"; "10.0.0.1"; "a"]]
                      ++ [["7"; "3307"] ++ "10.0.0.2" :: ["b"]])%list))
      = Ok res /\
    ("Master_Host" = "Master_Host" -> masterHost res = "10.0.0.2") /\
    ("Master_Host" = "Master_Port" -> masterPort res = "10.0.0.2") /\
    ("Master_Host" = "Seconds_Behind_Master" -> secondsMaster res = "10.0.0.2").
Proof.
  apply (unknownColumns_last_row ["Seconds_Behind_Master"; "Master_Port"]
           "Master_Host" ["Extra"] [["0"; "3306"; "10.0.0.1"; "a"]]
           ["7"; "3307"] "10.0.0.2" ["b"]);
    [reflexivity | reflexivity | | ].
  - intros [H | []]. discriminate H.
  - constructor; [reflexivity | constructor].
Defined.

(** X2: a cell that is not a non-nil byte slice (NULL, or a value of
    another dynamic type) ends the decoding of the whole result set: the
    cells after it and all later rows are ignored. *)
Theorem unknownColumns_stops_for_good decoded v col columns' after more :
  fst (assertBytes v) = None ->
  unknownColumns
    (mkRows (map fst decoded ++ col :: columns')%list
            ((map (fun d => cell (snd d)) decoded ++ v :: after)%list :: more))
  = Ok (fold_left (fun r d => assign r (fst d) (snd d)) decoded
                  (mkSlaveStatus "" "" "")).
Proof.
  intros Hv.
  pose proof (columnsLoop_stops decoded [] v col columns' after
                (mkSlaveStatus "" "" "") Hv) as Hstop.
  cbn [length app] in Hstop.
  unfold unknownColumns. cbn [Columns rowData rowsLoop].
  rewrite Hstop. reflexivity.
Qed.

Lemma unknownColumns_stops_for_good_witness :
  unknownColumns
    (mkRows ["Master_Host"; "Master_Port"; "Seconds_Behind_Master"]
            [[cell "10.0.0.1"; VInt64 3306; cell "5"];
             [cell "10.0.0.2"; cell "3307"; cell "9"]])
  = Ok (mkSlaveStatus "10.0.0.1" "" "").
Proof.
  apply (unknownColumns_stops_for_good [("Master_Host", "10.0.0.1")]
           (VInt64 3306) "Master_Port" ["Seconds_Behind_Master"] [cell "5"]
           [[cell "10.0.0.2"; cell "3307"; cell "9"]]).
  reflexivity.
Defined.

Lemma assign_byColumn rows res col sNum :
  byColumn rows res ->
  fromColumn rows col sNum ->
  byColumn rows (assign res col sNum).
Proof.
  intros (Hh & Hp & Hs) Hn. unfold assign.
  destruct (String.eqb_spec col "Master_Host") as [-> |];
    [repeat split; assumption |].
  destruct (String.eqb_spec col "Master_Port") as [-> |];
    [repeat split; assumption |].
  destruct (String.eqb_spec col "Seconds_Behind_Master") as [-> |];
    repeat split; assumption.
Qed.

Lemma columnsLoop_byColumn rows values :
  In values (rowData rows) ->
  forall columns done res f,
    Columns rows = (done ++ columns)%list ->
    byColumn rows res ->
    columnsLoop columns (length done) values res = Ok f ->
    match f with Next r | Return r => byColumn rows r end.
Proof.
  intros Hin. induction columns as [| col columns IH];
    intros done res f Hcols Hres Hrun; cbn [columnsLoop] in Hrun.
  - injection Hrun as <-. exact Hres.
  - destruct (nth (length done) values VNil) as [| [b |] | n | s] eqn:Hnth;
      cbn in Hrun; try (injection Hrun as <-; exact Hres).
    apply (IH (done ++ [col])%list (assign res col b) f).
    + rewrite <- app_assoc. exact Hcols.
    + apply assign_byColumn; [exact Hres |].
      right. exists values, (length done). split; [exact Hin |].
      split; [| exact Hnth].
      rewrite Hcols, nth_error_app2, Nat.sub_diag by lia. reflexivity.
    + rewrite length_app. cbn [length]. rewrite Nat.add_1_r. exact Hrun.
Qed.

Lemma rowsLoop_byColumn rows data :
  incl data (rowData rows) ->
  forall res r,
    byColumn rows res ->
    rowsLoop (Columns rows) data res = Ok r ->
    byColumn rows r.
Proof.
  induction data as [| values data IH]; intros Hincl res r Hres Hrun;
    cbn [rowsLoop] in Hrun.
  - injection Hrun as <-. exact Hres.
  - assert (Hin : In values (rowData rows)) by (apply Hincl; left; reflexivity).
    destruct (columnsLoop (Columns rows) 0 values res) as [[r' | r'] |] eqn:Hloop;
      try discriminate;
      pose proof (columnsLoop_byColumn rows values Hin (Columns rows) [] res _
                    eq_refl Hres Hloop) as Hr'.
    + apply (IH (fun x Hx => Hincl x (or_intror Hx)) r' r Hr' Hrun).
    + injection Hrun as <-. exact Hr'.
Qed.

(** X3: whatever the result set, the decoder does not panic, and each
    field it returns is empty or the text of a cell standing in a column
    of exactly that field's name: unrecognized columns and names in
    another case never reach a field. *)
Theorem unknownColumns_by_column rows :
  exists slaveValues,
    unknownColumns rows = Ok slaveValues /\ byColumn rows slaveValues.
Proof.
  destruct (unknownColumns_no_panic rows) as [sv Hd].
  exists sv. split; [exact Hd |].
  apply (rowsLoop_byColumn rows (rowData rows) (incl_refl _)
           (mkSlaveStatus "" "" "") sv); [| exact Hd].
  repeat split; left; reflexivity.
Qed.

(** ** The lag evaluator at its edges *)

Lemma digitVal_nonneg c : isDigit c = true -> 0 <= digitVal c.
Proof.
  unfold isDigit, digitVal. intros H. apply andb_true_iff in H.
  destruct H as [H _]. apply Nat.leb_le in H. lia.
Qed.

Lemma parseUintLoop_nonneg maxVal s :
  forall n m, 0 <= n -> parseUintLoop maxVal s n = UNum m -> 0 <= m.
Proof.
  induction s as [| c s IH]; intros n m Hn Hrun; cbn [parseUintLoop] in Hrun.
  - injection Hrun as <-. exact Hn.
  - destruct (isDigit c) eqn:Hc; [| discriminate].
    destruct ((2 ^ 64 - 1) / 10 + 1 <=? n); [discriminate |].
    destruct (maxVal <? n * 10 + digitVal c); [discriminate |].
    apply (IH (n * 10 + digitVal c) m); [| exact Hrun].
    pose proof (digitVal_nonneg c Hc). lia.
Qed.

Lemma ParseUint_nonneg sz s : 0 <= fst (ParseUint sz s).
Proof.
  unfold ParseUint. destruct s as [| c s]; [cbn; lia |].
  destruct (parseUintLoop (2 ^ bits sz - 1) (String c s) 0) as [n | |] eqn:Hrun;
    cbn [fst]; [| lia |].
  - apply (parseUintLoop_nonneg (2 ^ bits sz - 1) (String c s) 0 n);
      [lia | exact Hrun].
  - destruct sz; cbn; lia.
Qed.

Lemma cutoff_pos sz : 0 < 2 ^ (bits sz - 1).
Proof. destruct sz; reflexivity. Qed.

(** Whatever the text, [Atoi] yields a value of the [int] range. *)
Lemma Atoi_range sz s : minInt sz <= fst (Atoi sz s) <= maxInt sz.
Proof.
  unfold Atoi, ParseInt, minInt, maxInt. pose proof (cutoff_pos sz) as Hcut.
  destruct s as [| c rest]; [cbn [fst]; lia |].
  set (s' := if (c =? "+")%char || (c =? "-")%char then rest else String c rest).
  pose proof (ParseUint_nonneg sz s') as Hun.
  destruct (ParseUint sz s') as [un [[|] |]]; cbn [fst] in *; try lia;
    destruct (c =? "-")%char; cbn [negb andb];
    repeat match goal with
           | |- context [?a <=? ?b] => destruct (Z.leb_spec a b)
           | |- context [?a <? ?b] => destruct (Z.ltb_spec a b)
           end; cbn [fst]; lia.
Qed.

(** A text that is not a number parses to 0. *)
Lemma Atoi_syntax sz s :
  snd (Atoi sz s) = Some ErrSyntax -> fst (Atoi sz s) = 0.
Proof.
  unfold Atoi, ParseInt. destruct s as [| c rest]; [reflexivity |].
  set (s' := if (c =? "+")%char || (c =? "-")%char then rest else String c rest).
  destruct (ParseUint sz s') as [un [[|] |]]; [reflexivity | |];
    destruct (c =? "-")%char; cbn [negb andb];
    repeat match goal with
           | |- context [?a <=? ?b] => destruct (a <=? b)
           | |- context [?a <? ?b] => destruct (a <? b)
           end; cbn [fst snd]; intros H; discriminate H.
Qed.

Lemma effectiveLagCount_bound sz t :
  t <= maxInt sz -> effectiveLagCount sz t <= maxInt sz.
Proof.
  intros Ht. unfold effectiveLagCount.
  destruct (t =? 0); [rewrite maxInt_cases |]; lia.
Qed.

(** X4: the lag [replicaStatus] returns always fits an [int], and after a
    status query that succeeded it is the value left in the package-level
    [lag], whatever the threshold was; after a failed query the globals
    are as before. *)
Theorem replicaStatus_lag_stored sz t db g :
  exists within lagv g',
    replicaStatus sz t db g = Ok ((within, lagv), g') /\
    minInt sz <= lagv <= maxInt sz /\
    match showSlaveStatus db with
    | inl _ => g' = g
    | inr _ => lag g' = lagv
    end.
Proof.
  destruct (showSlaveStatus db) as [e | rows] eqn:Hq.
  - exists false, 0, g. split; [apply (replicaStatus_failed sz t db g e Hq) |].
    split; [| reflexivity].
    pose proof (cutoff_pos sz). unfold minInt, maxInt. lia.
  - destruct (unknownColumns_no_panic rows) as [sv Hd].
    rewrite (replicaStatus_decoded sz t db g rows sv Hq Hd).
    eexists _, _, _. split; [reflexivity |]. split; [| reflexivity].
    apply Atoi_range.
Qed.

(** X5: within-threshold is monotone in the threshold, and a lag within
    some positive threshold is within the unbounded threshold 0. *)
Theorem replicaStatus_monotone sz t t' db g lagv :
  0 < t <= t' ->
  t' <= maxInt sz ->
  returned (replicaStatus sz t db) g = Some (true, lagv) ->
  returned (replicaStatus sz t' db) g = Some (true, lagv) /\
  returned (replicaStatus sz 0 db) g = Some (true, lagv).
Proof.
  intros [Ht Htt'] Hmax. unfold returned.
  destruct (showSlaveStatus db) as [e | rows] eqn:Hq.
  - rewrite (replicaStatus_failed sz t db g e Hq). discriminate.
  - destruct (unknownColumns_no_panic rows) as [sv Hd].
    rewrite !(replicaStatus_decoded sz _ db g rows sv Hq Hd).
    rewrite effectiveLagCount_zero. unfold effectiveLagCount.
    destruct (Z.eqb_spec t 0); [lia |]. destruct (Z.eqb_spec t' 0); [lia |].
    intros H. injection H as Hw Hl. apply andb_true_iff in Hw.
    destruct Hw as [Hp Hlt]. apply Z.ltb_lt in Hlt. subst lagv.
    assert (H1 : (parsedLag sz sv <? t') = true) by (apply Z.ltb_lt; lia).
    assert (H2 : (parsedLag sz sv <? maxInt sz) = true)
      by (apply Z.ltb_lt; lia).
    rewrite Hp, H1, H2. split; reflexivity.
Qed.

Lemma replicaStatus_monotone_witness :
  returned (replicaStatus Bits64 60 (replicaDB (cell "12"))) g0
    = Some (true, 12) /\
  returned (replicaStatus Bits64 0 (replicaDB (cell "12"))) g0
    = Some (true, 12).
Proof.
  apply (replicaStatus_monotone Bits64 30 60 (replicaDB (cell "12")) g0 12);
    [lia | unfold maxInt; cbn; lia | reflexivity].
Defined.

(** A text out of the [int] range parses to the smallest [int] when it
    starts with a minus sign, and to the largest otherwise. *)
Lemma Atoi_out_of_range_sign sz s :
  snd (Atoi sz s) = Some ErrRange ->
  ((exists rest, s = String "-" rest) -> fst (Atoi sz s) = minInt sz) /\
  ((forall rest, s <> String "-" rest) -> fst (Atoi sz s) = maxInt sz).
Proof.
  unfold Atoi, ParseInt, maxInt, minInt.
  destruct s as [| c rest]; [discriminate |].
  set (s' := if (c =? "+")%char || (c =? "-")%char then rest else String c rest).
  destruct (ParseUint sz s') as [un [[|] |]]; [discriminate | |];
    (destruct (Ascii.eqb_spec c "-") as [-> | Hc]; cbn [negb andb];
     repeat match goal with
            | |- context [?a <=? ?b] => destruct (a <=? b)
            | |- context [?a <? ?b] => destruct (a <? b)
            end; cbn [fst snd]; intros H; try discriminate H;
     (split;
      [intros [rest' Hs]; first [reflexivity | injection Hs as Hs _; congruence]
      | intros Hs; first [reflexivity | destruct (Hs rest eq_refl)]])).
Qed.

(** X6: a lag text that does not fit an [int] is clamped, and the clamped
    value decides.  A lag too small (the text starts with a minus sign)
    is the smallest [int] and within threshold: [(true, MinInt)].  A lag
    too large is the largest [int] and within no threshold, not even the
    unbounded one: [(false, MaxInt)]. *)
Theorem replicaStatus_out_of_range sz t db g rows slaveValues :
  showSlaveStatus db = inr rows ->
  unknownColumns rows = Ok slaveValues ->
  snd (Atoi sz (secondsMaster slaveValues)) = Some ErrRange ->
  0 <= t <= maxInt sz ->
  ((exists rest, secondsMaster slaveValues = String "-" rest) ->
   returned (replicaStatus sz t db) g = Some (true, minInt sz)) /\
  ((forall rest, secondsMaster slaveValues <> String "-" rest) ->
   returned (replicaStatus sz t db) g = Some (false, maxInt sz)).
Proof.
  intros Hq Hd Hrange [Hlo Hhi].
  assert (Hpresent : secondsMaster slaveValues <> "").
  { intros Hempty. rewrite Hempty in Hrange. destruct sz; discriminate Hrange. }
  destruct (Atoi_out_of_range_sign sz _ Hrange) as [Hsmall Hlarge].
  pose proof (effectiveLagCount_bound sz t Hhi) as Hb.
  assert (Hpos : 0 < effectiveLagCount sz t).
  { unfold effectiveLagCount. destruct (Z.eqb_spec t 0).
    - rewrite maxInt_cases. apply maxInt_pos.
    - lia. }
  pose proof (cutoff_pos sz) as Hcut.
  unfold returned.
  rewrite (replicaStatus_decoded sz t db g rows slaveValues Hq Hd).
  rewrite (parsedLag_present sz slaveValues Hpresent).
  rewrite (proj2 (lagPresent_true slaveValues) Hpresent). cbn [andb].
  split; intros Hsign.
  - rewrite (Hsmall Hsign). unfold minInt.
    destruct (Z.ltb_spec (- 2 ^ (bits sz - 1)) (effectiveLagCount sz t));
      [reflexivity | lia].
  - rewrite (Hlarge Hsign).
    destruct (Z.ltb_spec (maxInt sz) (effectiveLagCount sz t));
      [lia | reflexivity].
Qed.

Lemma replicaStatus_out_of_range_witness :
  returned (replicaStatus Bits64 0
              (replicaDB (cell "99999999999999999999"))) g0
    = Some (false, maxInt Bits64) /\
  returned (replicaStatus Bits64 30
              (replicaDB (cell "-99999999999999999999"))) g0
    = Some (true, minInt Bits64).
Proof.
  split.
  - apply (replicaStatus_out_of_range Bits64 0
             (replicaDB (cell "99999999999999999999")) g0
             (replicaRows (cell "99999999999999999999"))
             (mkSlaveStatus "10.0.0.1" "3306" "99999999999999999999"));
      [reflexivity | reflexivity | vm_compute; reflexivity
      | unfold maxInt; cbn; lia | ].
    intros rest H. discriminate H.
  - apply (replicaStatus_out_of_range Bits64 30
             (replicaDB (cell "-99999999999999999999")) g0
             (replicaRows (cell "-99999999999999999999"))
             (mkSlaveStatus "10.0.0.1" "3306" "-99999999999999999999"));
      [reflexivity | reflexivity | vm_compute; reflexivity
      | unfold maxInt; cbn; lia | ].
    exists "99999999999999999999". reflexivity.
Defined.

(** X7: a lag field that is present but is not a number counts as lag 0
    of a replica: [replicaStatus] returns [(true, 0)] for every threshold
    [t >= 0]. *)
Theorem replicaStatus_unparsable_lag sz t db g rows slaveValues :
  showSlaveStatus db = inr rows ->
  unknownColumns rows = Ok slaveValues ->
  secondsMaster slaveValues <> "" ->
  snd (Atoi sz (secondsMaster slaveValues)) = Some ErrSyntax ->
  0 <= t ->
  returned (replicaStatus sz t db) g = Some (true, 0).
Proof.
  intros Hq Hd Hpresent Hsyn Ht. unfold returned.
  rewrite (replicaStatus_decoded sz t db g rows slaveValues Hq Hd).
  rewrite (parsedLag_present sz slaveValues Hpresent).
  rewrite (Atoi_syntax sz _ Hsyn).
  rewrite (proj2 (lagPresent_true slaveValues) Hpresent).
  assert (Hlt : 0 < effectiveLagCount sz t).
  { unfold effectiveLagCount. destruct (Z.eqb_spec t 0).
    - rewrite maxInt_cases. apply maxInt_pos.
    - lia. }
  apply Z.ltb_lt in Hlt. rewrite Hlt. reflexivity.
Qed.

Lemma replicaStatus_unparsable_lag_witness :
  returned (replicaStatus Bits64 5 (replicaDB (cell "n/a"))) g0
    = Some (true, 0).
Proof.
  apply (replicaStatus_unparsable_lag Bits64 5 (replicaDB (cell "n/a")) g0
           (replicaRows (cell "n/a")) (mkSlaveStatus "10.0.0.1" "3306" "n/a"));
    [reflexivity | reflexivity | discriminate | reflexivity | lia].
Defined.

(** ** The routes together *)

Lemma routes_respond sz Stat path handler :
  In (path, handler) (App.router sz Stat ++ Standalone.router sz) ->
  forall db g, exists httpStatus contents g',
    handler db g = Ok (routeResponse httpStatus contents, g').
Proof.
  intros Hin db g.
  destruct (isReplica_no_panic db) as (r & h & p & Hrep).
  destruct (replicaStatus_no_panic sz 0 db g) as ([w0 l0] & g1 & Hst).
  destruct (replicaStatus_no_panic sz (lag g) db g) as ([w1 l1] & g2 & Hst').
  unfold App.router, Standalone.router, sharedRoutes in Hin.
  cbn [app] in Hin.
  repeat (destruct Hin as [Heq | Hin];
          [injection Heq as _ <-;
           unfold App.RouteRoleMaster, Standalone.RouteRoleMaster,
             RouteStatusReadOnly, RouteStatusReadWritable, RouteStatusSingle,
             RouteStatusLeader, RouteStatusFollower, RouteStatusTopology,
             RouteRoleReplica, RouteRoleReplicaByLag, RouteRoleGalera,
             RouteReadGaleraState, RouteReadReplicationLag,
             RouteReadReplicationMaster, RouteReadReplicasCounter;
           try destruct (IsNotExist (Stat "/master"));
           try destruct (galeraClusterState db);
           unfold bind, lift, ret, getLag;
           rewrite ?Hrep; cbn beta iota; rewrite ?Hst, ?Hst';
           eauto |]).
  destruct Hin.
Qed.

(** X8: every handler of either service writes status 200 exactly when
    the [status] field of its response is true, and 403 otherwise. *)
Theorem status_code_follows_status sz Stat path handler db g w g' :
  In (path, handler) (App.router sz Stat ++ Standalone.router sz) ->
  handler db g = Ok (w, g') ->
  statusCode w = if Status (body w) then 200 else 403.
Proof.
  intros Hin Hrun.
  destruct (routes_respond sz Stat path handler Hin db g)
    as (b & s & g1 & Hresp).
  rewrite Hresp in Hrun. injection Hrun as <- _. reflexivity.
Qed.

Lemma status_code_follows_status_witness :
  statusCode (routeResponse false "") = 403.
Proof.
  apply (status_code_follows_status Bits64 markerAbsent "/role/replica"
           (RouteRoleReplica Bits64) (primaryDB 0) g0
           (routeResponse false "") g0);
    [unfold App.router, sharedRoutes; cbn [app In]; tauto | reflexivity].
Defined.

(** X9: the status routes partition the servers.  Read-write is the
    negation of read-only; single, leader and follower exclude one
    another; and a server that is not read-only is exactly one of the
    three. *)
Theorem status_partition db g :
  exists ro single leader follower,
    answer (RouteStatusReadOnly db) g = Some (ro, "") /\
    answer (RouteStatusReadWritable db) g = Some (negb ro, "") /\
    answer (RouteStatusSingle db) g = Some (single, "") /\
    answer (RouteStatusLeader db) g = Some (leader, "") /\
    answer (RouteStatusFollower db) g = Some (follower, "") /\
    single && leader = false /\
    single && follower = false /\
    leader && follower = false /\
    ro || single || leader || follower = true.
Proof.
  destruct (isReplica_no_panic db) as (r & h & p & Hrep).
  exists (readOnly db),
    (negb (readOnly db) && negb r && negb (int2bool (servingBinlogs db))),
    (negb r && int2bool (servingBinlogs db)), r.
  unfold RouteStatusReadOnly, RouteStatusReadWritable, RouteStatusSingle,
    RouteStatusLeader, RouteStatusFollower.
  repeat split; try (run_route; reflexivity);
    destruct (readOnly db), r, (int2bool (servingBinlogs db)); reflexivity.
Qed.

(** X10: how the master role sits among the status routes.  Under [app/]
    with no [/master] file it is read-write and leader; in the
    single-file service it is read-write and not follower, so a single
    server is a master there. *)
Theorem master_among_status Stat db g :
  exists rw single leader follower,
    answer (RouteStatusReadWritable db) g = Some (rw, "") /\
    answer (RouteStatusSingle db) g = Some (single, "") /\
    answer (RouteStatusLeader db) g = Some (leader, "") /\
    answer (RouteStatusFollower db) g = Some (follower, "") /\
    answer (App.RouteRoleMaster Stat db) g
      = Some (if IsNotExist (Stat "/master") then rw && leader else true, "") /\
    answer (Standalone.RouteRoleMaster db) g = Some (rw && negb follower, "") /\
    rw && negb follower = single || (rw && leader).
Proof.
  destruct (isReplica_no_panic db) as (r & h & p & Hrep).
  exists (negb (readOnly db)),
    (negb (readOnly db) && negb r && negb (int2bool (servingBinlogs db))),
    (negb r && int2bool (servingBinlogs db)), r.
  rewrite (app_master_answer Stat db g r h p Hrep).
  rewrite (standalone_master_answer db g r h p Hrep).
  rewrite (follower_answer db g r h p Hrep).
  unfold RouteStatusReadWritable, RouteStatusSingle, RouteStatusLeader.
  repeat split; try (run_route; reflexivity);
    destruct (IsNotExist (Stat "/master")), (readOnly db), r,
      (int2bool (servingBinlogs db)); reflexivity.
Qed.

(** X11: the topology route answers true for every follower; for any other
    server it answers true exactly when the server is a leader and its
    lag is not within the unbounded threshold. *)
Theorem topology_formula sz db g :
  exists follower leader within lagv,
    answer (RouteStatusFollower db) g = Some (follower, "") /\
    answer (RouteStatusLeader db) g = Some (leader, "") /\
    returned (replicaStatus sz 0 db) g = Some (within, lagv) /\
    answer (RouteStatusTopology sz db) g
      = Some (follower || (negb within && leader), "").
Proof.
  destruct (isReplica_no_panic db) as (r & h & p & Hrep).
  destruct (replicaStatus_no_panic sz 0 db g) as ([w l] & g1 & Hst).
  exists r, (negb r && int2bool (servingBinlogs db)), w, l.
  unfold RouteStatusFollower, RouteStatusLeader, RouteStatusTopology.
  repeat split; run_route; try reflexivity.
  destruct r, w, (int2bool (servingBinlogs db)); reflexivity.
Qed.

(** X12: a server that passes the lag-bounded replica role, for a
    threshold in the [int] range, passes the plain replica role. *)
Theorem replica_by_lag_implies_replica sz db g :
  0 <= lag g <= maxInt sz ->
  answer (RouteRoleReplicaByLag sz db) g = Some (true, "") ->
  answer (RouteRoleReplica sz db) g = Some (true, "").
Proof.
  intros [Hlo Hhi].
  unfold RouteRoleReplicaByLag, RouteRoleReplica, answer, bind, ret, getLag.
  destruct (showSlaveStatus db) as [e | rows] eqn:Hq.
  - rewrite !(replicaStatus_failed sz _ db g e Hq). cbn. trivial.
  - destruct (unknownColumns_no_panic rows) as [sv Hd].
    rewrite !(replicaStatus_decoded sz _ db g rows sv Hq Hd).
    cbn [Status Content body routeResponse fst snd].
    rewrite effectiveLagCount_zero. unfold effectiveLagCount.
    destruct (Z.eqb_spec (lag g) 0) as [_ | Hne].
    + rewrite maxInt_cases. trivial.
    + intros H. injection H as H. apply andb_true_iff in H.
      destruct H as [Hro H]. apply andb_true_iff in H.
      destruct H as [Hp Hlt]. apply Z.ltb_lt in Hlt.
      assert (H2 : (parsedLag sz sv <? maxInt sz) = true)
        by (apply Z.ltb_lt; lia).
      rewrite Hro, Hp, H2. reflexivity.
Qed.

Lemma replica_by_lag_implies_replica_witness :
  answer (RouteRoleReplica Bits64 (replicaDB (cell "12"))) (mkGlobals 30)
    = Some (true, "").
Proof.
  apply (replica_by_lag_implies_replica Bits64 (replicaDB (cell "12"))
           (mkGlobals 30));
    [unfold maxInt; cbn; lia | reflexivity].
Defined.

(** X13: for a follower the lag read reports the parsed lag in decimal;
    when the lag field is NULL or missing that is "0", the same detail
    as for a replica that has caught up. *)
Theorem lag_detail_of_follower sz db g rows slaveValues :
  showSlaveStatus db = inr rows ->
  unknownColumns rows = Ok slaveValues ->
  masterHost slaveValues <> "" ->
  answer (RouteReadReplicationLag sz db) g
    = Some (true, Itoa (parsedLag sz slaveValues)) /\
  (secondsMaster slaveValues = "" ->
   answer (RouteReadReplicationLag sz db) g = Some (true, "0")).
Proof.
  intros Hq Hd Hhost.
  pose proof (isReplica_decoded db rows slaveValues Hq Hd) as Hrep.
  destruct (String.eqb_spec (masterHost slaveValues) ""); [contradiction |].
  cbn [negb] in Hrep.
  pose proof (replicaStatus_decoded sz 0 db g rows slaveValues Hq Hd) as Hst.
  assert (Hans : answer (RouteReadReplicationLag sz db) g
                 = Some (true, Itoa (parsedLag sz slaveValues))).
  { unfold RouteReadReplicationLag. run_route. reflexivity. }
  split; [exact Hans |].
  intros Hempty. rewrite Hans. unfold parsedLag. rewrite Hempty.
  cbn -[Atoi]. rewrite Atoi_zero. reflexivity.
Qed.

Lemma lag_detail_of_follower_witness :
  answer (RouteReadReplicationLag Bits64 (replicaDB VNil)) g0
    = Some (true, "0").
Proof.
  apply (lag_detail_of_follower Bits64 (replicaDB VNil) g0 (replicaRows VNil)
           (mkSlaveStatus "10.0.0.1" "3306" ""));
    [reflexivity | reflexivity | discriminate | reflexivity].
Defined.

(** X14: which handlers touch the package-level [lag].  Those that do not
    call [replicaStatus] leave the globals as they found them; each of
    the four that do leaves what [replicaStatus] leaves, the threshold
    playing no part. *)
Theorem globals_after_routes sz Stat db g :
  (forall handler, In handler (quietRoutes Stat) ->
                   leaves (handler db) g = Some g) /\
  (forall handler, In handler (lagRoutes sz) ->
                   leaves (handler db) g = leaves (replicaStatus sz 0 db) g).
Proof.
  destruct (isReplica_no_panic db) as (r & h & p & Hrep).
  split; intros handler Hin.
  - unfold quietRoutes in Hin. cbn [In] in Hin.
    repeat (destruct Hin as [<- | Hin];
            [unfold leaves, App.RouteRoleMaster, Standalone.RouteRoleMaster,
               RouteStatusReadOnly, RouteStatusReadWritable, RouteStatusSingle,
               RouteStatusLeader, RouteStatusFollower, RouteRoleGalera,
               RouteReadGaleraState, RouteReadReplicationMaster,
               RouteReadReplicasCounter;
             try destruct (IsNotExist (Stat "/master"));
             try destruct (galeraClusterState db);
             unfold bind, lift, ret; rewrite ?Hrep; reflexivity |]).
    destruct Hin.
  - assert (Hany : forall t,
               leaves (replicaStatus sz t db) g
               = leaves (replicaStatus sz 0 db) g).
    { intros t. unfold leaves.
      destruct (showSlaveStatus db) as [e | rows] eqn:Hq.
      - rewrite !(replicaStatus_failed sz _ db g e Hq). reflexivity.
      - destruct (unknownColumns_no_panic rows) as [sv Hd].
        rewrite !(replicaStatus_decoded sz _ db g rows sv Hq Hd).
        reflexivity. }
    specialize (Hany (lag g)). unfold leaves in Hany |- *.
    destruct (replicaStatus_no_panic sz 0 db g) as ([w0 l0] & g1 & Hst).
    destruct (replicaStatus_no_panic sz (lag g) db g) as ([w1 l1] & g2 & Hst').
    rewrite Hst, Hst' in Hany.
    unfold lagRoutes in Hin. cbn [In] in Hin.
    repeat (destruct Hin as [<- | Hin];
            [unfold RouteStatusTopology, RouteRoleReplica,
               RouteRoleReplicaByLag, RouteReadReplicationLag,
               bind, lift, ret, getLag;
             rewrite ?Hrep; cbn beta iota; rewrite ?Hst, ?Hst';
             try exact Hany; reflexivity |]).
    destruct Hin.
Qed.

(** ** The URI middleware *)

Lemma digit_not_in_cutset c :
  isDigit c = true ->
  Strings.inSet "/role/replica/" c = false /\ Strings.inSet "/" c = false.
Proof.
  destruct c as [[] [] [] [] [] [] [] []]; intros H;
    try discriminate H; split; reflexivity.
Qed.

Lemma TrimRight_allDigits cutset d :
  (forall c, isDigit c = true -> Strings.inSet cutset c = false) ->
  allDigits d = true ->
  Strings.TrimRight d cutset = d.
Proof.
  intros Hset. induction d as [| c d IH]; intros Hd; [reflexivity |].
  cbn [allDigits] in Hd. apply andb_true_iff in Hd. destruct Hd as [Hc Hd].
  cbn [Strings.TrimRight]. rewrite (IH Hd).
  destruct d; [rewrite (Hset c Hc) |]; reflexivity.
Qed.

(** A tail that [TrimRight] keeps whole protects everything before it. *)
Lemma TrimRight_app_kept cutset d :
  Strings.TrimRight d cutset = d ->
  d <> "" ->
  forall p, Strings.TrimRight (p ++ d) cutset = p ++ d.
Proof.
  intros Hd Hne. induction p as [| c p IH]; [exact Hd |].
  cbn [append Strings.TrimRight]. rewrite IH.
  destruct (p ++ d) eqn:Hpd; [| reflexivity].
  destruct p; [cbn in Hpd; contradiction | discriminate Hpd].
Qed.

(** [TrimRight] never keeps a string that ends in a byte of the cut
    set. *)
Lemma TrimRight_cuts cutset c :
  Strings.inSet cutset c = true ->
  forall p, Strings.TrimRight (p ++ String c "") cutset <> p ++ String c "".
Proof.
  intros Hc. induction p as [| a p IH]; cbn [append Strings.TrimRight].
  - rewrite Hc. discriminate.
  - destruct (Strings.TrimRight (p ++ String c "") cutset) as [| k kept] eqn:Hk.
    + destruct (Strings.inSet cutset a); [discriminate |].
      intros H. injection H as H. destruct p; discriminate H.
    + intros H. injection H as H. apply IH. exact H.
Qed.

Lemma compare_same (b : string) : String.compare b b = Eq.
Proof.
  pose proof (String.compare_antisym b b) as H.
  destruct (String.compare b b); [reflexivity | discriminate H | discriminate H].
Qed.

Lemma Compare_zero a b : (Strings.Compare a b =? 0) = true <-> a = b.
Proof.
  unfold Strings.Compare. split.
  - destruct (String.compare a b) eqn:Hc; cbn; try discriminate.
    intros _. apply String.compare_eq_iff. exact Hc.
  - intros ->. rewrite compare_same. reflexivity.
Qed.

Lemma lag_path_trimmed d :
  allDigits d = true ->
  d <> "" ->
  Strings.Trim ("/role/replica/" ++ d) "/role/replica/" = d /\
  Strings.Contains ("/role/replica/" ++ d) "/role/replica/" = true /\
  (String.length "/role/replica/"
     <? String.length ("/role/replica/" ++ d))%nat = true.
Proof.
  intros Hd Hne.
  assert (Hkeep : Strings.TrimRight d "/role/replica/" = d)
    by (apply TrimRight_allDigits;
        [intros c Hc; apply (digit_not_in_cutset c Hc) | exact Hd]).
  split; [| split].
  - unfold Strings.Trim.
    rewrite (TrimRight_app_kept _ d Hkeep Hne "/role/replica/").
    destruct d as [| c d]; [contradiction |].
    cbn [allDigits] in Hd. apply andb_true_iff in Hd. destruct Hd as [Hc _].
    cbn -[Strings.inSet]. rewrite (proj1 (digit_not_in_cutset c Hc)).
    reflexivity.
  - destruct d; reflexivity.
  - destruct d; [contradiction | reflexivity].
Qed.

(** X15: a request for [/role/replica/<digits>] stores the number of the
    path in [lag] before the handler runs; with the lag-bounded replica
    handler behind it, the answer is read-only and within that
    threshold, whatever [lag] held before. *)
Theorem CheckURL_lag_path sz db d g :
  allDigits d = true ->
  d <> "" ->
  CheckURL sz (fun _ => RouteRoleReplicaByLag sz db) ("/role/replica/" ++ d) g
  = served (RouteRoleReplicaByLag sz db) (mkGlobals (fst (Atoi sz d))) /\
  exists within lagv,
    returned (replicaStatus sz (fst (Atoi sz d)) db) g = Some (within, lagv) /\
    answer (RouteRoleReplicaByLag sz db) (mkGlobals (fst (Atoi sz d)))
    = Some (readOnly db && within, "").
Proof.
  intros Hd Hne.
  destruct (lag_path_trimmed d Hd Hne) as (Htrim & Hcont & Hlen).
  split.
  { unfold CheckURL. rewrite Hcont, Hlen, Htrim. reflexivity. }
  set (n := fst (Atoi sz d)).
  unfold returned, answer, RouteRoleReplicaByLag, bind, ret, getLag.
  cbn [lag].
  destruct (showSlaveStatus db) as [e | rows] eqn:Hq.
  - rewrite !(replicaStatus_failed sz n db _ e Hq). eauto.
  - destruct (unknownColumns_no_panic rows) as [sv Hsv].
    rewrite !(replicaStatus_decoded sz n db _ rows sv Hq Hsv). eauto.
Qed.

Lemma CheckURL_lag_path_witness :
  CheckURL Bits64 (fun _ => RouteRoleReplicaByLag Bits64 (replicaDB (cell "42")))
           ("/role/replica/" ++ "30") (mkGlobals 500)
  = served (RouteRoleReplicaByLag Bits64 (replicaDB (cell "42")))
           (mkGlobals (fst (Atoi Bits64 "30"))) /\
  exists within lagv,
    returned (replicaStatus Bits64 (fst (Atoi Bits64 "30"))
                (replicaDB (cell "42"))) (mkGlobals 500)
      = Some (within, lagv) /\
    answer (RouteRoleReplicaByLag Bits64 (replicaDB (cell "42")))
           (mkGlobals (fst (Atoi Bits64 "30")))
    = Some (readOnly (replicaDB (cell "42")) && within, "").
Proof.
  apply (CheckURL_lag_path Bits64 (replicaDB (cell "42")) "30" (mkGlobals 500));
    [reflexivity | discriminate].
Defined.

(** X16: when what is left of a lag path after trimming does not parse to
    a non-zero number, [lag] becomes 0 and the lag-bounded handler
    answers as the plain replica role does. *)
Theorem CheckURL_lag_path_zero sz db path g :
  Strings.Contains path "/role/replica/" = true ->
  (String.length "/role/replica/" <? String.length path)%nat = true ->
  fst (Atoi sz (Strings.Trim path "/role/replica/")) = 0 ->
  CheckURL sz (fun _ => RouteRoleReplicaByLag sz db) path g
  = served (RouteRoleReplica sz db) (mkGlobals 0).
Proof.
  intros Hcont Hlen Hzero. unfold CheckURL. rewrite Hcont, Hlen, Hzero.
  reflexivity.
Qed.

Lemma CheckURL_lag_path_zero_witness :
  CheckURL Bits64 (fun _ => RouteRoleReplicaByLag Bits64 (replicaDB (cell "42")))
           "/role/replica/30?pretty" (mkGlobals 7)
  = served (RouteRoleReplica Bits64 (replicaDB (cell "42"))) (mkGlobals 0).
Proof.
  apply (CheckURL_lag_path_zero Bits64 (replicaDB (cell "42"))
           "/role/replica/30?pretty" (mkGlobals 7));
    reflexivity.
Defined.

(** X17: a URI that ends in a slash and is no lag path is dropped: the
    middleware returns without calling the handler, without a response
    and without touching the globals.  That includes [/role/replica/]
    itself. *)
Theorem CheckURL_trailing_slash sz A (next : string -> M A) p g :
  Strings.Contains (p ++ "/") "/role/replica/" = false \/
  p ++ "/" = "/role/replica/" ->
  CheckURL sz next (p ++ "/") g = Ok (None, g).
Proof.
  intros Hcase. unfold CheckURL.
  assert (Hfirst : Strings.Contains (p ++ "/") "/role/replica/"
                   && (String.length "/role/replica/"
                         <? String.length (p ++ "/"))%nat = false).
  { destruct Hcase as [-> | ->]; reflexivity. }
  rewrite Hfirst.
  destruct (Strings.Compare (p ++ "/") (Strings.TrimRight (p ++ "/") "/") =? 0)
    eqn:Hcmp; [| reflexivity].
  apply Compare_zero in Hcmp. symmetry in Hcmp.
  destruct (TrimRight_cuts "/" "/"%char eq_refl p Hcmp).
Qed.

Lemma CheckURL_trailing_slash_witness :
  CheckURL Bits64 (fun _ => RouteStatusReadOnly (primaryDB 0))
           ("/status/ro" ++ "/") g0 = Ok (None, g0) /\
  CheckURL Bits64 (fun _ => RouteRoleReplicaByLag Bits64 (primaryDB 0))
           ("/role/replica" ++ "/") g0 = Ok (None, g0).
Proof.
  split.
  - apply (CheckURL_trailing_slash Bits64 Written
             (fun _ => RouteStatusReadOnly (primaryDB 0)) "/status/ro" g0).
    left. reflexivity.
  - apply (CheckURL_trailing_slash Bits64 Written
             (fun _ => RouteRoleReplicaByLag Bits64 (primaryDB 0))
             "/role/replica" g0).
    right. reflexivity.
Defined.

(** X18: a URI that does not end in a slash and does not contain the lag
    prefix reaches the handler with the globals untouched and the JSON
    content type set. *)
Theorem CheckURL_passes sz A (next : string -> M A) p c g :
  c <> "/"%char ->
  Strings.Contains (p ++ String c "") "/role/replica/" = false ->
  CheckURL sz next (p ++ String c "") g
  = served (next (p ++ String c "")) g.
Proof.
  intros Hc Hcont. unfold CheckURL. rewrite Hcont. cbn [andb].
  assert (Hset : Strings.inSet "/" c = false).
  { cbn. destruct (Ascii.eqb_spec c "/"); [contradiction | reflexivity]. }
  assert (Hkeep : Strings.TrimRight (p ++ String c "") "/" = p ++ String c "").
  { apply TrimRight_app_kept; [| discriminate].
    cbn [Strings.TrimRight]. rewrite Hset. reflexivity. }
  rewrite Hkeep.
  rewrite (proj2 (Compare_zero _ _) eq_refl). reflexivity.
Qed.

Lemma CheckURL_passes_witness :
  CheckURL Bits64 (fun _ => RouteStatusReadOnly (primaryDB 0))
           ("/status/r" ++ "o") (mkGlobals 9)
  = served (RouteStatusReadOnly (primaryDB 0)) (mkGlobals 9).
Proof.
  apply (CheckURL_passes Bits64 Written
           (fun _ => RouteStatusReadOnly (primaryDB 0)) "/status/r" "o"%char
           (mkGlobals 9));
    [discriminate | reflexivity].
Defined.

(** ** Start-up of the service under app/ *)

Lemma append_assoc (a b c : string) : (a ++ b) ++ c = a ++ b ++ c.
Proof. induction a as [| x a IH]; cbn; [| rewrite IH]; reflexivity. Qed.

Lemma host_is_unix inner :
  exists inner', "unix(" ++ inner ++ ")" = "unix(" ++ inner' ++ ")" \/
                 "unix(" ++ inner ++ ")" = "tcp(" ++ inner' ++ ")".
Proof. exists inner. left. reflexivity. Qed.

Lemma host_is_tcp a b :
  exists inner', "tcp(" ++ a ++ ":" ++ b ++ ")" = "unix(" ++ inner' ++ ")" \/
                 "tcp(" ++ a ++ ":" ++ b ++ ")" = "tcp(" ++ inner' ++ ")".
Proof.
  exists (a ++ ":" ++ b). right.
  rewrite (append_assoc a (":" ++ b) ")"). reflexivity.
Qed.

Lemma connect_verdict env a b :
  dbUser a = dbUser b -> dbPass a = dbPass b -> dbHost a = dbHost b ->
  verdict (connect env a) = verdict (connect env b).
Proof.
  intros Hu Hp Hh. unfold connect. rewrite Hu, Hp, Hh.
  destruct ((dbUser b =? "")%string || (dbPass b =? "")%string
            || (dbHost b =? "")%string); [reflexivity |].
  destruct (sqlOpen env _); [| reflexivity].
  destruct (dbPing env _); reflexivity.
Qed.

Lemma connect_success env flags msg flags' h :
  connect env flags = Ok (true, msg, flags', h) ->
  let dsn := dbUser flags ++ ":" ++ dbPass flags ++ "@" ++ dbHost flags
             ++ "/mysql" in
  msg = "" /\ flags' = flags /\
  dbUser flags <> "" /\ dbPass flags <> "" /\
  h = Some (mkHandle dsn true) /\
  sqlOpen env dsn = true /\ dbPing env dsn = None.
Proof.
  unfold connect.
  destruct (String.eqb_spec (dbUser flags) "") as [| Hu]; [discriminate |].
  destruct (String.eqb_spec (dbPass flags) "") as [| Hp]; [discriminate |].
  destruct (dbHost flags =? "")%string; [discriminate |]. cbn [orb].
  destruct (sqlOpen env _) eqn:Hopen; [| discriminate].
  destruct (dbPing env _) eqn:Hping; [discriminate |].
  intros H. injection H as <- <- <-. repeat split; assumption.
Qed.

(** X19: what a successful start-up guarantees.  The listen port is in
    1024..65535; user and password are not empty; the host is a unix
    socket or a tcp address; the data source name is
    [user:password@host/mysql]; the server accepted a ping on it; and the
    handle the service is left with has been closed. *)
Theorem validateInputArgs_success env flags msg flags' h :
  validateInputArgs env flags = Ok (true, msg, flags', h) ->
  1024 <= listenPort flags <= 65535 /\
  msg = "" /\
  dbUser flags' <> "" /\ dbPass flags' <> "" /\
  (exists inner, dbHost flags' = "unix(" ++ inner ++ ")" \/
                 dbHost flags' = "tcp(" ++ inner ++ ")") /\
  let dsn := dbUser flags' ++ ":" ++ dbPass flags' ++ "@" ++ dbHost flags'
             ++ "/mysql" in
  h = Some (mkHandle dsn true) /\
  sqlOpen env dsn = true /\ dbPing env dsn = None.
Proof.
  unfold validateInputArgs.
  destruct (Z.ltb_spec (listenPort flags) 1024) as [| Hlo]; [discriminate |].
  destruct (Z.ltb_spec 65535 (listenPort flags)) as [| Hhi]; [discriminate |].
  cbn [orb]. intros H.
  assert (Hgoal : forall fl,
             connect env fl = Ok (true, msg, flags', h) ->
             (exists inner, dbHost fl = "unix(" ++ inner ++ ")" \/
                            dbHost fl = "tcp(" ++ inner ++ ")") ->
             1024 <= listenPort flags <= 65535 /\
             msg = "" /\
             dbUser flags' <> "" /\ dbPass flags' <> "" /\
             (exists inner, dbHost flags' = "unix(" ++ inner ++ ")" \/
                            dbHost flags' = "tcp(" ++ inner ++ ")") /\
             let dsn := dbUser flags' ++ ":" ++ dbPass flags' ++ "@"
                        ++ dbHost flags' ++ "/mysql" in
             h = Some (mkHandle dsn true) /\
             sqlOpen env dsn = true /\ dbPing env dsn = None).
  { intros fl Hc Hhost.
    destruct (connect_success env fl msg flags' h Hc)
      as (Hm & -> & Hu & Hp & Hh & Ho & Hpi).
    split; [lia |]. repeat split; assumption. }
  destruct (negb (dbCnf flags =? "")%string).
  - destruct (IsNotExist (osStat env (dbCnf flags))); [discriminate |].
    destruct (iniLoad env (dbCnf flags)) as [err | client]; [discriminate |].
    destruct (HasKey client "password"); [| discriminate].
    apply (Hgoal _ H).
    destruct (HasKey client "socket"), (HasKey client "port"),
      (HasKey client "user");
      cbn [dbHost withHost withPort withUser withPass dbPort];
      first [apply host_is_unix | apply host_is_tcp].
  - apply (Hgoal _ H).
    destruct (negb (dbSocketPath flags =? "")%string);
      cbn [dbHost withHost];
      first [apply host_is_unix | apply host_is_tcp].
Qed.

Lemma validateInputArgs_success_witness :
  1024 <= listenPort sampleFlags <= 65535 /\
  "" = "" /\
  "mysql" <> "" /\ "secret" <> "" /\
  (exists inner, "tcp(localhost:3306)" = "unix(" ++ inner ++ ")" \/
                 "tcp(localhost:3306)" = "tcp(" ++ inner ++ ")") /\
  Some (mkHandle "mysql:secret@tcp(localhost:3306)/mysql" true)
    = Some (mkHandle "mysql:secret@tcp(localhost:3306)/mysql" true) /\
  sqlOpen reachable "mysql:secret@tcp(localhost:3306)/mysql" = true /\
  dbPing reachable "mysql:secret@tcp(localhost:3306)/mysql" = None.
Proof.
  apply (validateInputArgs_success reachable sampleFlags ""
           (withHost sampleFlags "tcp(localhost:3306)")
           (Some (mkHandle "mysql:secret@tcp(localhost:3306)/mysql" true))).
  reflexivity.
Defined.

Lemma validateInputArgs_success_closed env flags msg flags' h :
  validateInputArgs env flags = Ok (true, msg, flags', Some h) ->
  closed h = true /\ forall server, through h server = brokenDB.
Proof.
  unfold validateInputArgs.
  destruct ((listenPort flags <? 1024) || (65535 <? listenPort flags));
    [discriminate |].
  assert (Hgoal : forall fl,
             connect env fl = Ok (true, msg, flags', Some h) ->
             closed h = true /\ forall server, through h server = brokenDB).
  { intros fl Hc.
    destruct (connect_success env fl msg flags' (Some h) Hc)
      as (_ & _ & _ & _ & Hh & _).
    injection Hh as ->. split; [reflexivity |]. intros server. reflexivity. }
  destruct (negb (dbCnf flags =? "")%string).
  - destruct (IsNotExist (osStat env (dbCnf flags))); [discriminate |].
    destruct (iniLoad env (dbCnf flags)) as [err | client]; [discriminate |].
    destruct (HasKey client "password"); [| discriminate].
    apply Hgoal.
  - apply Hgoal.
Qed.

(** X20: the handle a successful start-up leaves behind is closed, so
    every statement of every later request fails: each probe gives its
    negative value, the read-write route answers true and the read-only,
    follower and replica-role routes answer false, whatever the server
    would have said. *)
Theorem requests_after_start_up sz env flags msg flags' h server g :
  validateInputArgs env flags = Ok (true, msg, flags', Some h) ->
  closed h = true /\
  through h server = brokenDB /\
  readOnly (through h server) = false /\
  isReplica (through h server) = Ok (false, "", "") /\
  servingBinlogs (through h server) = 0 /\
  galeraClusterState (through h server) = (false, "") /\
  (forall t, returned (replicaStatus sz t (through h server)) g
             = Some (false, 0)) /\
  answer (RouteStatusReadWritable (through h server)) g = Some (true, "") /\
  answer (RouteStatusReadOnly (through h server)) g = Some (false, "") /\
  answer (RouteStatusFollower (through h server)) g = Some (false, "") /\
  answer (RouteRoleReplica sz (through h server)) g = Some (false, "").
Proof.
  intros H.
  destruct (validateInputArgs_success_closed env flags msg flags' h H) as [Hc Ht].
  rewrite (Ht server). split; [exact Hc |]. repeat split; reflexivity.
Qed.

(** X21: the connection settings of a config file win over the flags: with
    [-cnf] given, the verdict, the message and the handle of start-up do
    not depend on the user, password, host, port, socket and listen
    address flags. *)
Theorem cnf_overrides_flags env flags user pass host port sock addr :
  dbCnf flags <> "" ->
  verdict (validateInputArgs env
             (mkFlags user pass host port (dbCnf flags) sock addr
                      (listenPort flags)))
  = verdict (validateInputArgs env flags).
Proof.
  intros Hcnf. unfold validateInputArgs. cbn [listenPort dbCnf].
  destruct ((listenPort flags <? 1024) || (65535 <? listenPort flags));
    [reflexivity |].
  destruct (String.eqb_spec (dbCnf flags) ""); [contradiction |]. cbn [negb].
  destruct (IsNotExist (osStat env (dbCnf flags))); [reflexivity |].
  destruct (iniLoad env (dbCnf flags)) as [err | client]; [reflexivity |].
  destruct (HasKey client "password"); [| reflexivity].
  apply connect_verdict;
    destruct (HasKey client "socket"), (HasKey client "port"),
      (HasKey client "user"); reflexivity.
Qed.

Lemma cnf_overrides_flags_witness :
  let env := mkEnv (fun _ => None)
                   (fun _ => inr (mkIniSection
                                    (fun key => negb (key =? "socket")%string)
                                    (fun key => key) (fun _ => 3310)))
                   (fun _ => true) (fun _ => None) in
  let flags := mkFlags "mysql" "" "localhost" 3306 "/root/.my.cnf" ""
                       "0.0.0.0" 3307 in
  verdict (validateInputArgs env
             (mkFlags "admin" "secret" "db1" 3307 (dbCnf flags) "/tmp/s"
                      "127.0.0.1" (listenPort flags)))
  = verdict (validateInputArgs env flags).
Proof.
  cbv zeta.
  apply (cnf_overrides_flags _
           (mkFlags "mysql" "" "localhost" 3306 "/root/.my.cnf" ""
                    "0.0.0.0" 3307)).
  discriminate.
Defined.

Lemma requests_after_start_up_witness :
  closed (mkHandle "mysql:secret@tcp(localhost:3306)/mysql" true) = true /\
  answer (RouteStatusReadWritable
            (through (mkHandle "mysql:secret@tcp(localhost:3306)/mysql" true)
                     (replicaDB (cell "0")))) g0 = Some (true, "").
Proof.
  pose proof (requests_after_start_up Bits64 reachable sampleFlags ""
                (withHost sampleFlags "tcp(localhost:3306)")
                (mkHandle "mysql:secret@tcp(localhost:3306)/mysql" true)
                (replicaDB (cell "0")) g0 eq_refl) as H.
  split; [apply H |]. apply H.
Defined.

(** ** Decimal round trips *)

Lemma uintValue_ge d : forall acc, 0 <= acc -> acc <= uintValue d acc.
Proof.
  induction d as [| l IH | l IH | l IH | l IH | l IH | l IH | l IH | l IH
                  | l IH | l IH]; intros acc Hacc; cbn [uintValue];
    [lia | ..];
    match goal with
    | |- _ <= uintValue _ ?a => specialize (IH a ltac:(lia)); lia
    end.
Qed.

(** The digit loop of [ParseUint] reads back what the decimal printer
    wrote, as long as the number fits. *)
Lemma parseUintLoop_printed maxVal d :
  maxVal <= 18446744073709551615 ->
  forall acc,
    0 <= acc ->
    uintValue d acc <= maxVal ->
    parseUintLoop maxVal (NilEmpty.string_of_uint d) acc
    = UNum (uintValue d acc).
Proof.
  intros Hmax.
  induction d as [| l IH | l IH | l IH | l IH | l IH | l IH | l IH | l IH
                  | l IH | l IH]; intros acc Hacc Hfit;
    cbn [NilEmpty.string_of_uint uintValue parseUintLoop] in *;
    [reflexivity | ..];
    eval_digit; cbv iota;
    change ((2 ^ 64 - 1) / 10 + 1) with 1844674407370955162;
    match goal with
    | H : uintValue l ?a <= maxVal |- _ =>
        pose proof (uintValue_ge l a ltac:(lia)) as Hge;
        destruct (Z.leb_spec 1844674407370955162 acc); [lia |];
        cbv zeta;
        destruct (Z.ltb_spec maxVal a); [lia |];
        apply (IH a ltac:(lia) H)
    end.
Qed.

Lemma of_uint_acc_value d :
  forall acc, Z.pos (Pos.of_uint_acc d acc) = uintValue d (Z.pos acc).
Proof.
  induction d as [| l IH | l IH | l IH | l IH | l IH | l IH | l IH | l IH
                  | l IH | l IH]; intros acc;
    cbn [Pos.of_uint_acc uintValue]; [reflexivity | ..];
    rewrite IH; f_equal; lia.
Qed.

Lemma of_uint_value d : Z.of_N (Pos.of_uint d) = uintValue d 0.
Proof.
  induction d as [| l IH | l IH | l IH | l IH | l IH | l IH | l IH | l IH
                  | l IH | l IH];
    cbn [Pos.of_uint uintValue Z.of_N]; [reflexivity | exact IH | ..];
    apply of_uint_acc_value.
Qed.

Lemma to_uint_value p : uintValue (Pos.to_uint p) 0 = Z.pos p.
Proof. rewrite <- of_uint_value, Unsigned.of_to. reflexivity. Qed.

Lemma printed_allDigits d : allDigits (NilEmpty.string_of_uint d) = true.
Proof.
  induction d as [| l IH | l IH | l IH | l IH | l IH | l IH | l IH | l IH
                  | l IH | l IH];
    cbn [NilEmpty.string_of_uint allDigits]; [reflexivity | ..];
    eval_digit; exact IH.
Qed.

Lemma printed_positive p :
  NilZero.string_of_uint (Pos.to_uint p)
  = NilEmpty.string_of_uint (Pos.to_uint p) /\
  exists c rest,
    NilEmpty.string_of_uint (Pos.to_uint p) = String c rest /\
    (c =? "+")%char = false /\ (c =? "-")%char = false.
Proof.
  pose proof (Unsigned.to_uint_nonnil p) as Hnil.
  destruct (Pos.to_uint p); [contradiction | ..];
    (split; [reflexivity |]); eexists _, _; repeat split; reflexivity.
Qed.

Lemma maxVal_bounds sz :
  maxInt sz < 2 ^ bits sz - 1 <= 18446744073709551615 /\
  2 ^ (bits sz - 1) <= 2 ^ bits sz - 1.
Proof. destruct sz; cbn; lia. Qed.

(** [Atoi] reads back every [int] that [Itoa] printed. *)
Lemma Atoi_Itoa sz n :
  minInt sz <= n <= maxInt sz -> Atoi sz (Itoa n) = (n, None).
Proof.
  intros [Hlo Hhi]. destruct (maxVal_bounds sz) as [[Hm1 Hm2] Hm3].
  unfold minInt, maxInt in *. pose proof (cutoff_pos sz) as Hcut.
  destruct n as [| p | p].
  - apply Atoi_zero.
  - unfold Itoa, Atoi. cbn [Z.to_int NilZero.string_of_int].
    destruct (printed_positive p) as [-> (c & rest & Hs & Hplus & Hminus)].
    pose proof (parseUintLoop_printed (2 ^ bits sz - 1) (Pos.to_uint p) Hm2 0
                  ltac:(lia)) as Hparse.
    rewrite to_uint_value in Hparse. specialize (Hparse ltac:(lia)).
    rewrite Hs in Hparse |- *.
    unfold ParseInt, ParseUint. rewrite Hplus, Hminus. cbn [orb negb andb].
    rewrite Hparse.
    destruct (Z.leb_spec (2 ^ (bits sz - 1)) (Z.pos p)); [lia | reflexivity].
  - unfold Itoa, Atoi. cbn [Z.to_int NilZero.string_of_int].
    destruct (printed_positive p) as [-> (c & rest & Hs & _)].
    pose proof (parseUintLoop_printed (2 ^ bits sz - 1) (Pos.to_uint p) Hm2 0
                  ltac:(lia)) as Hparse.
    rewrite to_uint_value in Hparse. specialize (Hparse ltac:(lia)).
    rewrite Hs in Hparse |- *.
    unfold ParseInt, ParseUint. cbn [Ascii.eqb Bool.eqb orb negb andb].
    rewrite Hparse. cbn [negb andb].
    destruct (Z.ltb_spec (2 ^ (bits sz - 1)) (Z.pos p)); [lia | reflexivity].
Qed.

(** X22: the decimal details parse back to the numbers they stand for.
    For a follower, [Atoi] of the lag detail is the lag [replicaStatus]
    parsed; for a binlog dump count in the [int] range, [Atoi] of the
    counter detail is the count, and the status tells whether it is not
    zero. *)
Theorem details_parse_back sz db g rows slaveValues :
  showSlaveStatus db = inr rows ->
  unknownColumns rows = Ok slaveValues ->
  masterHost slaveValues <> "" ->
  0 <= servingBinlogs db <= maxInt sz ->
  (exists detail,
     answer (RouteReadReplicationLag sz db) g = Some (true, detail) /\
     Atoi sz detail = (parsedLag sz slaveValues, None)) /\
  (exists detail,
     answer (RouteReadReplicasCounter db) g
       = Some (negb (servingBinlogs db =? 0), detail) /\
     Atoi sz detail = (servingBinlogs db, None)).
Proof.
  intros Hq Hd Hhost Hcount. split.
  - pose proof (isReplica_decoded db rows slaveValues Hq Hd) as Hrep.
    destruct (String.eqb_spec (masterHost slaveValues) ""); [contradiction |].
    cbn [negb] in Hrep.
    pose proof (replicaStatus_decoded sz 0 db g rows slaveValues Hq Hd) as Hst.
    exists (Itoa (parsedLag sz slaveValues)). split.
    + unfold RouteReadReplicationLag. run_route. reflexivity.
    + apply Atoi_Itoa. apply Atoi_range.
  - exists (Itoa (servingBinlogs db)). split.
    + unfold RouteReadReplicasCounter, answer, ret, int2bool.
      cbn [Status Content body routeResponse].
      destruct (Z.eqb_spec (servingBinlogs db) 0) as [-> |]; reflexivity.
    + apply Atoi_Itoa. pose proof (cutoff_pos sz). unfold minInt. lia.
Qed.

Lemma details_parse_back_witness :
  (exists detail,
     answer (RouteReadReplicationLag Bits64 (replicaDB (cell "17"))) g0
       = Some (true, detail) /\
     Atoi Bits64 detail
       = (parsedLag Bits64 (mkSlaveStatus "10.0.0.1" "3306" "17"), None)) /\
  (exists detail,
     answer (RouteReadReplicasCounter (replicaDB (cell "17"))) g0
       = Some (negb (servingBinlogs (replicaDB (cell "17")) =? 0), detail) /\
     Atoi Bits64 detail = (servingBinlogs (replicaDB (cell "17")), None)).
Proof.
  apply (details_parse_back Bits64 (replicaDB (cell "17")) g0
           (replicaRows (cell "17")) (mkSlaveStatus "10.0.0.1" "3306" "17"));
    [reflexivity | reflexivity | discriminate | ].
  unfold maxInt. cbn. lia.
Defined.

(** X23: the threshold of a lag path round-trips: for every [n] from 0 to
    the largest [int], a request for [/role/replica/] followed by [n] in
    decimal reaches the handler with [lag = n], whatever handler is
    wrapped and whatever [lag] held before. *)
Theorem CheckURL_threshold_round_trip sz A (next : string -> M A) n g :
  0 <= n <= maxInt sz ->
  CheckURL sz next ("/role/replica/" ++ Itoa n) g
  = served (next ("/role/replica/" ++ Itoa n)) (mkGlobals n).
Proof.
  intros [Hlo Hhi].
  assert (Hdigits : allDigits (Itoa n) = true /\ Itoa n <> "").
  { destruct n as [| p | p]; [split; [reflexivity | discriminate] | | lia].
    unfold Itoa. cbn [Z.to_int NilZero.string_of_int].
    destruct (printed_positive p) as [-> (c & rest & Hs & _)].
    split; [apply printed_allDigits | rewrite Hs; discriminate]. }
  destruct Hdigits as [Hd Hne].
  destruct (lag_path_trimmed (Itoa n) Hd Hne) as (Htrim & Hcont & Hlen).
  unfold CheckURL. rewrite Hcont, Hlen, Htrim.
  rewrite Atoi_Itoa; [reflexivity |].
  pose proof (cutoff_pos sz). unfold minInt. lia.
Qed.

Lemma CheckURL_threshold_round_trip_witness :
  CheckURL Bits64 (fun _ => RouteRoleReplicaByLag Bits64 (replicaDB (cell "42")))
           ("/role/replica/" ++ Itoa 120) (mkGlobals 5)
  = served (RouteRoleReplicaByLag Bits64 (replicaDB (cell "42")))
           (mkGlobals 120).
Proof.
  apply (CheckURL_threshold_round_trip Bits64 Written
           (fun _ => RouteRoleReplicaByLag Bits64 (replicaDB (cell "42")))
           120 (mkGlobals 5)).
  unfold maxInt. cbn. lia.
Defined.
